(** * Admin client of the telemetry vehicle: session and protocol layer

    Shallow embedding of [src/admin/admin_client.py] (class
    [TelemetryInterface]): the socket life cycle ([connect], [disconnect],
    [cleanup_socket], [send_command]) and the receive loop with its line
    reassembly and message handling.  Widgets and layout are not modelled;
    every call that reaches them is recorded as an event. *)

From Stdlib Require Import Strings.String Strings.Ascii Strings.Byte NArith List Bool Lia.
From stdpp Require Import base option list gmap pretty.

Local Open Scope N_scope.

(** ** Python text

    A Python [str] is a sequence of Unicode code points, [bytes] a sequence
    of octets. *)

Abbreviation char := N (only parsing).
Abbreviation str := (list N) (only parsing).
Abbreviation bytes := (list byte) (only parsing).

(** A literal of the source, read as the code points of its characters
    (the literals of this program are ASCII, the status bullet apart). *)
Definition py (s : string) : str :=
  map N_of_ascii (list_ascii_of_string s).

Module PyStr.

Definition nl : char := 10.
Definition eq_sign : char := 61.
Definition semicolon : char := 59.

(** [str.isspace] of one character, the set [str.strip()] removes. *)
Definition is_space (c : char) : bool :=
  ((9 <=? c) && (c <=? 13)) || ((28 <=? c) && (c <=? 32))
  || (c =? 133) || (c =? 160) || (c =? 5760)
  || ((8192 <=? c) && (c <=? 8202))
  || (c =? 8232) || (c =? 8233) || (c =? 8239) || (c =? 8287)
  || (c =? 12288).

Fixpoint lstrip_with (p : char -> bool) (s : str) : str :=
  match s with
  | [] => []
  | c :: r => if p c then lstrip_with p r else s
  end.

Definition rstrip_with (p : char -> bool) (s : str) : str :=
  rev (lstrip_with p (rev s)).

Definition strip_with (p : char -> bool) (s : str) : str :=
  rstrip_with p (lstrip_with p s).

(** [s.strip()] *)
Definition strip (s : str) : str := strip_with is_space s.

Definition mem (c : char) (chars : str) : bool := existsb (N.eqb c) chars.

(** [s.strip(chars)]: [chars] is a set of characters, not a prefix. *)
Definition strip_chars (chars : str) (s : str) : str :=
  strip_with (fun c => mem c chars) s.

(** [s.startswith(p)] *)
Fixpoint starts_with (p s : str) : bool :=
  match p, s with
  | [], _ => true
  | _ :: _, [] => false
  | a :: p', b :: s' => (a =? b) && starts_with p' s'
  end.

(** [sub in s] *)
Fixpoint contains (sub s : str) : bool :=
  starts_with sub s
  || match s with
     | [] => false
     | _ :: r => contains sub r
     end.

(** [s.endswith(c)] for a one-character [c]. *)
Definition ends_with_char (c : char) (s : str) : bool :=
  match rev s with
  | [] => false
  | d :: _ => d =? c
  end.

(** [s.replace(old, new)] for a non-empty [old]: the occurrences are
    taken left to right and do not overlap; [skip] counts the characters
    of a matched occurrence that are still to be passed over. *)
Fixpoint replace_from (old new : str) (skip : nat) (s : str) : str :=
  match s with
  | [] => []
  | c :: r =>
      match skip with
      | S k => replace_from old new k r
      | O =>
          if starts_with old s
          then new ++ replace_from old new (Nat.pred (length old)) r
          else c :: replace_from old new O r
      end
  end.

Definition replace (old new s : str) : str := replace_from old new O s.

(** [s.split(sep)] for a one-character [sep]: never an empty list. *)
Fixpoint split (sep : char) (s : str) : list str :=
  match s with
  | [] => [[]]
  | c :: r =>
      if c =? sep then [] :: split sep r
      else match split sep r with
           | [] => [[c]]
           | w :: ws => (c :: w) :: ws
           end
  end.

(** [sep in s] together with [s.split(sep, 1)]: [None] when [sep] does
    not occur, else the text before and the text after its first
    occurrence. *)
Fixpoint split_once (sep : char) (s : str) : option (str * str) :=
  match s with
  | [] => None
  | c :: r =>
      if c =? sep then Some ([], r)
      else match split_once sep r with
           | Some (a, b) => Some (c :: a, b)
           | None => None
           end
  end.

End PyStr.

(** ** UTF-8, the codec of [bytes.decode()] and [str.encode()] *)

Module Utf8.

Definition cont (b : N) : bool := (128 <=? b) && (b <=? 191).
Definition within (lo hi b : N) : bool := (lo <=? b) && (b <=? hi).
Definition low6 (b : N) : N := N.land b 63.

(** Strict decoding: [None] stands for [UnicodeDecodeError] (truncated
    sequence, stray continuation byte, overlong form, surrogate, or a
    value above U+10FFFF). *)
Fixpoint decode (bs : bytes) : option str :=
  match bs with
  | [] => Some []
  | b0 :: r0 =>
      let n0 := Byte.to_N b0 in
      if n0 <? 128 then cons n0 <$> decode r0
      else if within 194 223 n0 then
        match r0 with
        | b1 :: r1 =>
            let n1 := Byte.to_N b1 in
            if cont n1
            then cons (N.shiftl (N.land n0 31) 6 + low6 n1) <$> decode r1
            else None
        | [] => None
        end
      else if within 224 239 n0 then
        match r0 with
        | b1 :: b2 :: r2 =>
            let n1 := Byte.to_N b1 in
            let n2 := Byte.to_N b2 in
            if within (if n0 =? 224 then 160 else 128)
                      (if n0 =? 237 then 159 else 191) n1 && cont n2
            then cons (N.shiftl (N.land n0 15) 12 + N.shiftl (low6 n1) 6
                       + low6 n2) <$> decode r2
            else None
        | _ => None
        end
      else if within 240 244 n0 then
        match r0 with
        | b1 :: b2 :: b3 :: r3 =>
            let n1 := Byte.to_N b1 in
            let n2 := Byte.to_N b2 in
            let n3 := Byte.to_N b3 in
            if within (if n0 =? 240 then 144 else 128)
                      (if n0 =? 244 then 143 else 191) n1
               && cont n2 && cont n3
            then cons (N.shiftl (N.land n0 7) 18 + N.shiftl (low6 n1) 12
                       + N.shiftl (low6 n2) 6 + low6 n3) <$> decode r3
            else None
        | _ => None
        end
      else None
  end.

Definition octet (n : N) : byte :=
  match Byte.of_N (n mod 256) with
  | Some b => b
  | None => x00
  end.

Definition tail6 (n : N) : byte := octet (128 + N.land n 63).

(** The octets of one code point; [None] for a surrogate (which
    [str.encode()] rejects with [UnicodeEncodeError]) and for a value no
    Python [str] can hold. *)
Definition encode_char (c : char) : option bytes :=
  if c <? 128 then Some [octet c]
  else if c <? 2048 then Some [octet (192 + N.shiftr c 6); tail6 c]
  else if within 55296 57343 c then None
  else if c <? 65536 then
    Some [octet (224 + N.shiftr c 12); tail6 (N.shiftr c 6); tail6 c]
  else if c <? 1114112 then
    Some [octet (240 + N.shiftr c 18); tail6 (N.shiftr c 12);
          tail6 (N.shiftr c 6); tail6 c]
  else None.

Fixpoint encode (s : str) : option bytes :=
  match s with
  | [] => Some []
  | c :: r =>
      match encode_char c, encode r with
      | Some a, Some b => Some (a ++ b)
      | _, _ => None
      end
  end.

End Utf8.

(** ** Exceptions, effects and the environment *)

(** The exception classes this code can meet.  Those of the first line are
    raised by the interpreter on the program's own operations; the others
    come out of socket calls, with the text the platform gives them. *)
Inductive exn :=
  | ValueError | IndexError | AttributeError | NameError
  | UnicodeDecodeError | UnicodeEncodeError
  | SocketTimeout (text : str)
  | ConnectionRefusedError (text : str)
  | OSError (text : str).

(** The argument of [log_command]: a literal, or an f-string ending in an
    exception ([f"ERROR sending command: {e}"]); the text of [e] is whatever
    [str(e)] gives when the f-string is evaluated. *)
Inductive message :=
  | Text (s : str)
  | WithExn (prefix : str) (e : exn).

(** What [self.after(0, f)] hands to the Tk event loop (the thread that
    owns the widgets): the callables the code posts. *)
Inductive callback :=
  | CbLog (m : message)             (* lambda: self.log_command(m) *)
  | CbDisconnect                    (* self.disconnect *)
  | CbUpdateTelemetryDisplay.       (* self.update_telemetry_display *)

Inductive sock_call :=
  | Create                          (* socket.socket(AF_INET, SOCK_STREAM) *)
  | SetTimeout (seconds : option N)
  | Connect (host : str) (port : N)
  | Send (data : bytes)
  | Recv (bufsize : N)
  | Close.

Inductive widget := StatusLabel | ConnectBtn | DisconnectBtn.

(** The effects of a call, in order.  [LogCommand], [UpdateTelemetryDisplay]
    and [Configure] touch widgets from the thread that executes the call;
    [After] only posts a callable to the event loop. *)
Inductive event :=
  | Sock (s : nat) (c : sock_call)
  | Print (text : str)
  | Sleep (milliseconds : N)
  | LogCommand (m : message)
  | UpdateTelemetryDisplay (shown : gmap (list N) (list N))
  | Configure (w : widget) (options : list (str * str))
  | After (cb : callback)
  | ThreadStart.

(** The fields of a [TelemetryInterface] object the session layer uses.
    A socket object is named by its creation rank. *)
Record client := Client {
  server_socket : option nat;
  host : str;
  port : N;
  is_connected : bool;
  should_receive : bool;
  telemetry_data : gmap (list N) (list N)
}.

(** The object and its surroundings: [script] says what each coming socket
    call does ([None]: it succeeds, [Some e]: it raises [e]; past its end
    every call succeeds), [clock] is what
    [datetime.now().strftime("%H:%M:%S")] returns, [trace] the effects so
    far, oldest first. *)
Record world := World {
  self : client;
  script : list (option exn);
  sockets : nat;
  clock : str;
  trace : list event
}.

(** How a call ends: with a value, with an exception, or (a device of the
    model only) because a loop was given too few steps. *)
Inductive outcome (A : Type) :=
  | Val (a : A)
  | Exc (e : exn)
  | Starved.
Arguments Val {A} a.
Arguments Exc {A} e.
Arguments Starved {A}.

Definition M (A : Type) : Type := world -> outcome A * world.

Definition ret {A} (a : A) : M A := fun w => (Val a, w).

Definition bind {A B} (m : M A) (k : A -> M B) : M B :=
  fun w =>
    match m w with
    | (Val a, w') => k a w'
    | (Exc e, w') => (Exc e, w')
    | (Starved, w') => (Starved, w')
    end.

Definition raise {A} (e : exn) : M A := fun w => (Exc e, w).

(** [try: m  except Exception as e: h e] (also the bare [except:]). *)
Definition try_ {A} (m : M A) (h : exn -> M A) : M A :=
  fun w =>
    match m w with
    | (Exc e, w') => h e w'
    | r => r
    end.

#[global] Instance M_ret : MRet M := @ret.
#[global] Instance M_bind : MBind M := fun A B k m => bind m k.

Definition get_self : M client := fun w => (Val (self w), w).

Definition set_self (f : client -> client) : M unit :=
  fun w => (Val tt, World (f (self w)) (script w) (sockets w) (clock w) (trace w)).

Definition emit (e : event) : M unit :=
  fun w => (Val tt, World (self w) (script w) (sockets w) (clock w) (trace w ++ [e])).

Definition now : M str := fun w => (Val (clock w), w).

(** The next entry of the script decides what a socket call does. *)
Definition environment : M unit :=
  fun w =>
    match script w with
    | [] => (Val tt, w)
    | None :: rest =>
        (Val tt, World (self w) rest (sockets w) (clock w) (trace w))
    | Some e :: rest =>
        (Exc e, World (self w) rest (sockets w) (clock w) (trace w))
    end.

(** A method call on the socket object [s]. *)
Definition call (s : nat) (c : sock_call) : M unit :=
  emit (Sock s c) ;; environment.

(** [socket.socket(socket.AF_INET, socket.SOCK_STREAM)]: the constructor
    may raise; otherwise a socket is created and named by its rank. *)
Definition created : M nat :=
  fun w =>
    let s := sockets w in
    (Val s, World (self w) (script w) (S s) (clock w) (trace w ++ [Sock s Create])).

Definition new_socket : M nat := environment;; created.

Definition set_server_socket (v : option nat) (c : client) : client :=
  Client v (host c) (port c) (is_connected c) (should_receive c) (telemetry_data c).
Definition set_is_connected (v : bool) (c : client) : client :=
  Client (server_socket c) (host c) (port c) v (should_receive c) (telemetry_data c).
Definition set_should_receive (v : bool) (c : client) : client :=
  Client (server_socket c) (host c) (port c) (is_connected c) v (telemetry_data c).
(** [self.telemetry_data[key] = value] *)
Definition set_telemetry (key value : str) (c : client) : client :=
  Client (server_socket c) (host c) (port c) (is_connected c) (should_receive c)
         (<[key := value]> (telemetry_data c)).

(** [print(text)]: the text goes to the standard output, taken to be a
    UTF-8 stream (Python's default); a text that does not encode, one with a
    lone surrogate, makes [print] raise. *)
Definition print_ (text : str) : M unit :=
  match Utf8.encode text with
  | Some _ => emit (Print text)
  | None => raise UnicodeEncodeError
  end.

(** [text.encode()] *)
Definition encode (text : str) : M bytes :=
  match Utf8.encode text with
  | Some b => mret b
  | None => raise UnicodeEncodeError
  end.

(** [data.decode()] *)
Definition decode (data : bytes) : M str :=
  match Utf8.decode data with
  | Some s => mret s
  | None => raise UnicodeDecodeError
  end.

(** ** The methods of [TelemetryInterface] *)

Import PyStr.

(** [log_command]: the message is appended to the log widget, after the
    time of day. *)
Definition log_command (m : message) : M unit := emit (LogCommand m).

(** [update_telemetry_display]: the labels are redrawn from the current
    [telemetry_data]. *)
Definition update_telemetry_display : M unit :=
  c ← get_self; emit (UpdateTelemetryDisplay (telemetry_data c)).

(** [self.after(0, cb)] *)
Definition after (cb : callback) : M unit := emit (After cb).

Definition cleanup_socket : M unit :=
  c ← get_self;
  match server_socket c with
  | Some s =>
      try_ (call s Close) (fun _ => mret tt);;
      set_self (set_server_socket None)
  | None => mret tt
  end.

Definition disconnect : M unit :=
  c ← get_self;
  if negb (is_connected c) then
    log_command (Text (py "Already disconnected"))
  else
    log_command (Text (py "Disconnecting from server..."));;
    set_self (set_should_receive false);;
    try_ (c ← get_self;
          match server_socket c with
          | Some s =>
              data ← encode (py "QUIT" ++ [nl]);
              call s (Send data);;
              emit (Sleep 100)
          | None => mret tt
          end)
         (fun _ => mret tt);;
    cleanup_socket;;
    set_self (set_is_connected false);;
    emit (Configure StatusLabel
            [(py "text", 9679 :: py " Disconnected"); (py "text_color", py "red")]);;
    emit (Configure ConnectBtn [(py "state", py "normal")]);;
    emit (Configure DisconnectBtn [(py "state", py "disabled")]);;
    log_command (Text (py "Disconnected from server")).

Definition send_command (message : str) : M bool :=
  c ← get_self;
  match is_connected c, server_socket c with
  | true, Some s =>
      print_ (py "Sending: " ++ message);;
      let message :=
        if ends_with_char nl message then message else message ++ [nl] in
      try_ (data ← encode message;
            call s (Send data);;
            mret true)
           (fun e =>
              log_command (WithExn (py "ERROR sending command: ") e);;
              disconnect;;
              mret false)
  | _, _ =>
      log_command (Text (py "ERROR: Not connected to server"));;
      mret false
  end.

Definition start_receive_thread : M unit :=
  set_self (set_should_receive true);;
  emit ThreadStart.

Definition connect : M unit :=
  c ← get_self;
  if is_connected c then
    log_command (Text (py "Already connected to server"))
  else
    try_ (s ← new_socket;
          set_self (set_server_socket (Some s));;
          call s (SetTimeout (Some 5));;
          log_command (Text (py "Connecting to " ++ host c ++ py ":"
                             ++ py (pretty (port c)) ++ py "..."));;
          call s (Connect (host c) (port c));;
          call s (SetTimeout None);;
          data ← encode (py "AUTH admin admin123" ++ [nl]);
          call s (Send data);;
          emit (Sleep 100);;
          set_self (set_is_connected true);;
          emit (Configure StatusLabel
                  [(py "text", 9679 :: py " Connected"); (py "text_color", py "green")]);;
          emit (Configure ConnectBtn [(py "state", py "disabled")]);;
          emit (Configure DisconnectBtn [(py "state", py "normal")]);;
          log_command (Text (py "Successfully connected to server"));;
          start_receive_thread)
         (fun e =>
            match e with
            | SocketTimeout _ =>
                log_command (Text (py "ERROR: Connection timeout"));;
                cleanup_socket
            | ConnectionRefusedError _ =>
                log_command
                  (Text (py "ERROR: Connection refused. Is the server running?"));;
                cleanup_socket
            | _ =>
                log_command (WithExn (py "ERROR connecting: ") e);;
                cleanup_socket
            end)
  .

(** *** The receive loop *)

(** [dict(items)]: every item must have exactly two elements (otherwise
    [ValueError], here [None]); a later item replaces an earlier one with
    the same key. *)
Fixpoint dict_update (d : gmap (list N) (list N)) (items : list (list str))
  : option (gmap (list N) (list N)) :=
  match items with
  | [] => Some d
  | [k; v] :: rest => dict_update (<[k := v]> d) rest
  | _ :: _ => None
  end.

Definition dict (items : list (list str)) : M (gmap (list N) (list N)) :=
  match dict_update ∅ items with
  | Some d => mret d
  | None => raise ValueError
  end.

(** [l[i]] *)
Definition index (l : list str) (i : nat) : M str :=
  match l !! i with
  | Some v => mret v
  | None => raise IndexError
  end.

(** [[x.split("=") for x in line.replace("TLM ", "").split(";")]] *)
Definition telemetry_items (line : str) : list (list str) :=
  let telemetry_str := replace (py "TLM ") [] line in
  map (split eq_sign) (split semicolon telemetry_str).

(** The body of the inner [while] for one [line], already stripped: the
    [if]/[elif] chain of [receive_loop]. *)
Definition handle_line (line : str) : M unit :=
  if bool_decide (line ≠ []) && contains (py "TLM") line then
    telemetry ← dict (telemetry_items line);
    set_self (set_telemetry (py "speed")
                (default (py "0.0") (telemetry !! py "speed")));;
    set_self (set_telemetry (py "battery")
                (default (py "0.0") (telemetry !! py "battery")));;
    t ← now;
    set_self (set_telemetry (py "time") (default t (telemetry !! py "ts")));;
    set_self (set_telemetry (py "temperature")
                (default (py "0.0") (telemetry !! py "temp")));;
    set_self (set_telemetry (py "direction")
                (default (py "N") (telemetry !! py "dir")));;
    log_command (Text (py "Telemetry received"));;
    after CbUpdateTelemetryDisplay
  else if bool_decide (line ≠ []) && contains (py "dir") line then
    direction ← index (split eq_sign (strip_chars (py "OK ") line)) 1;
    set_self (set_telemetry (py "direction") direction);;
    update_telemetry_display
  else if bool_decide (line ≠ []) && contains (py "speed") line then
    speed ← index (split eq_sign (strip_chars (py "OK ") line)) 1;
    set_self (set_telemetry (py "speed") speed);;
    update_telemetry_display
  else if bool_decide (line ≠ []) then
    after (CbLog (Text (py "Server: " ++ line)))
  else mret tt.

(** [while '\n' in buffer: line, buffer = buffer.split('\n', 1); ...],
    returning the final [buffer].  Every turn removes a newline from
    [buffer], so [length buffer] turns are enough ([Starved] is never
    reached from there, see [drain_not_starved]). *)
Fixpoint drain (fuel : nat) (buffer : str) : M str :=
  match split_once nl buffer with
  | None => mret buffer
  | Some (line, rest) =>
      match fuel with
      | O => fun w => (Starved, w)
      | S k => handle_line (strip line);; drain k rest
      end
  end.

(** What one [recv] of the run gives: data, or an exception. *)
Inductive recv_result :=
  | Data (b : bytes)
  | Fails (e : exn).

(** [self.server_socket.recv(1024)] *)
Definition recv (r : recv_result) : M bytes :=
  c ← get_self;
  match server_socket c with
  | None => raise AttributeError
  | Some s =>
      emit (Sock s (Recv 1024));;
      match r with
      | Data b => mret b
      | Fails e => raise e
      end
  end.

(** One turn of the outer [while]: the [try] with its handler.  [None] is
    [break], [Some buffer] goes on with the new buffer. *)
Definition receive_step (buffer : str) (r : recv_result) : M (option str) :=
  try_ (raw ← recv r;
        data ← decode raw;
        match data with
        | [] =>
            after (CbLog (Text (py "Server closed connection")));;
            after CbDisconnect;;
            mret None
        | _ :: _ =>
            let buffer := buffer ++ data in
            buffer ← drain (length buffer) buffer;
            mret (Some buffer)
        end)
       (fun e =>
          c ← get_self;
          (if should_receive c then
             after (CbLog (WithExn (py "ERROR receiving data: ") e));;
             after CbDisconnect
           else mret tt);;
          mret None).

(** How a run of the loop over a finite supply of [recv] results ends:
    the loop was left, or it is blocked in [recv]. *)
Inductive loop_end := Exited | Waiting.

Fixpoint receive_loop_from (buffer : str) (inbound : list recv_result)
  : M loop_end :=
  c ← get_self;
  if should_receive c && is_connected c then
    match inbound with
    | [] => mret Waiting
    | r :: inbound' =>
        b ← receive_step buffer r;
        match b with
        | Some buffer' => receive_loop_from buffer' inbound'
        | None => mret Exited
        end
    end
  else mret Exited.

Definition receive_loop (inbound : list recv_result) : M loop_end :=
  receive_loop_from [] inbound.

(** The event loop running a posted callable, on the thread that owns the
    widgets.  The callable of line 197 reads [e] when it is run; by then
    the [except] block that bound [e] has ended and unbound it, so the
    f-string raises [NameError] and nothing is logged.  (The callables of
    lines 154 and 193 hold their text: a literal, and [msg=line] bound when
    the lambda was made.) *)
Definition run_callback (cb : callback) : M unit :=
  match cb with
  | CbLog (Text s) => log_command (Text s)
  | CbLog (WithExn _ _) => raise NameError
  | CbDisconnect => disconnect
  | CbUpdateTelemetryDisplay => update_telemetry_display
  end.

(** The object [__init__] builds. *)
Definition initial_telemetry (t : str) : gmap (list N) (list N) :=
  <[py "time" := t]> (<[py "temperature" := py "0.0"]> (<[py "battery" := py "0.0"]>
    (<[py "speed" := py "0.0"]> (<[py "direction" := py "N"]> ∅)))).

Definition initial_client (t : str) : client :=
  Client None (py "127.0.0.1") 9000 false false (initial_telemetry t).

Definition initial_world (t : str) (script : list (option exn)) : world :=
  World (initial_client t) script 0 t [].

(** ** Vocabulary of the statements *)

(** The world after more effects, and with another object. *)
Definition with_trace (w : world) (ev : list event) : world :=
  World (self w) (script w) (sockets w) (clock w) (trace w ++ ev).

Definition with_self (w : world) (c : client) : world :=
  World c (script w) (sockets w) (clock w) (trace w).

(** The five assignments of the telemetry branch. *)
Definition apply_telemetry (d : gmap (list N) (list N)) (t : str) (c : client)
  : client :=
  set_telemetry (py "direction") (default (py "N") (d !! py "dir"))
    (set_telemetry (py "temperature") (default (py "0.0") (d !! py "temp"))
       (set_telemetry (py "time") (default t (d !! py "ts"))
          (set_telemetry (py "battery") (default (py "0.0") (d !! py "battery"))
             (set_telemetry (py "speed") (default (py "0.0") (d !! py "speed"))
                c)))).

Definition is_close (e : event) : bool :=
  match e with Sock _ Close => true | _ => false end.

Definition is_connect (e : event) : bool :=
  match e with Sock _ (Connect _ _) => true | _ => false end.

Definition is_create (e : event) : bool :=
  match e with Sock _ Create => true | _ => false end.

Definition is_sock (e : event) : bool :=
  match e with Sock _ _ => true | _ => false end.

(** An event that reaches a widget from the thread that runs the call
    (as opposed to [After], which only posts to the event loop). *)
Definition touches_widgets (e : event) : bool :=
  match e with
  | LogCommand _ | UpdateTelemetryDisplay _ | Configure _ _ => true
  | _ => false
  end.

(** [sub] occurs somewhere in [s]. *)
Definition occurs (sub s : str) : Prop := exists a b, s = a ++ sub ++ b.

(** A text made of whitespace only, none of it a newline. *)
Definition blank (s : str) : Prop :=
  Forall (fun c => is_space c = true /\ c <> nl) s.

(** A text that neither starts nor ends with whitespace. *)
Definition trimmed (s : str) : Prop :=
  (forall c r, s = c :: r -> is_space c = false) /\
  (forall r c, s = r ++ [c] -> is_space c = false).

(** The message kinds of the specification, with its priority order. *)
Inductive kind :=
  | Telemetry | PartialDirectionAck | PartialSpeedAck | Log | Discarded.

Definition spec_kind (line : str) (k : kind) : Prop :=
  match k with
  | Telemetry => occurs (py "TLM") line
  | PartialDirectionAck => ~ occurs (py "TLM") line /\ occurs (py "dir") line
  | PartialSpeedAck =>
      ~ occurs (py "TLM") line /\ ~ occurs (py "dir") line /\
      occurs (py "speed") line
  | Log =>
      ~ occurs (py "TLM") line /\ ~ occurs (py "dir") line /\
      ~ occurs (py "speed") line /\ line <> []
  | Discarded => line = []
  end.

(** The extraction rule of the specification for a partial ack: the token
    after the last [=] of the line. *)
Definition spec_token_after_last_eq (line : str) : str :=
  List.last (split eq_sign line) [].

(** [v] is the token after the first [=] of [line]: the text from there up
    to the next [=], or to the end of the line. *)
Definition token_after_first_eq (line v : str) : Prop :=
  exists key rest,
    line = key ++ eq_sign :: v ++ rest /\
    (eq_sign ∉ key) /\ (eq_sign ∉ v) /\
    (rest = [] \/ exists r, rest = eq_sign :: r).

(** The complete lines the inner [while] of [receive_loop] binds to [line]
    (before [strip]) and the buffer it leaves: [drain] without the
    handling. *)
Fixpoint complete_lines (fuel : nat) (buffer : str) : list str * str :=
  match split_once nl buffer with
  | None => ([], buffer)
  | Some (line, rest) =>
      match fuel with
      | O => ([], buffer)
      | S k => let '(ls, b) := complete_lines k rest in (line :: ls, b)
      end
  end.

(** [buffer += data] followed by the inner [while]. *)
Definition feed (buffer data : str) : list str * str :=
  complete_lines (length (buffer ++ data)) (buffer ++ data).

(** Handling the lines of a list in order, as the inner [while] does. *)
Fixpoint handle_lines (lines : list str) : M unit :=
  match lines with
  | [] => mret tt
  | line :: more => handle_line (strip line);; handle_lines more
  end.

(** No pair of the telemetry line has the key [key]. *)
Definition absent (key : str) (line : str) : Prop :=
  forall item, item ∈ telemetry_items line -> head item <> Some key.

(** A world right after a successful [connect] on a fresh object, its
    trace left out. *)
Definition session (t : str) : world :=
  World (Client (Some 0%nat) (py "127.0.0.1") 9000 true true (initial_telemetry t))
        [] 1 t [].

(** The octets of an ASCII literal. *)
Definition octets (s : string) : bytes := list_byte_of_string s.



(** ** The command handlers and the window *)

(** [speed_up] *)
Definition speed_up : M unit :=
  send_command (py "SPEED UP") ≫= fun sent : bool =>
  if sent then log_command (Text (py "Command sent: SPEED UP")) else mret tt.

(** [slow_down] *)
Definition slow_down : M unit :=
  send_command (py "SLOW DOWN") ≫= fun sent : bool =>
  if sent then log_command (Text (py "Command sent: SLOW DOWN")) else mret tt.

(** [change_direction] *)
Definition change_direction (direction : str) : M unit :=
  send_command (py "TURN " ++ direction) ≫= fun sent : bool =>
  if sent then log_command (Text (py "Command sent: TURN " ++ direction))
  else mret tt.

(** What [on_closing] ends with: [self.destroy()]. *)
Inductive window := Destroyed.

(** [on_closing] *)
Definition on_closing : M window :=
  c ← get_self;
  (if is_connected c then disconnect else mret tt);;
  emit (Sleep 200);;
  mret Destroyed.







(** The text [send_command] puts on the wire for [message]. *)
Definition framed (message : str) : str :=
  if ends_with_char nl message then message else message ++ [nl].

(** The connection flag and the socket handle agree. *)
Definition consistent (c : client) : Prop :=
  is_connected c = true <-> is_Some (server_socket c).

(** The five keys of the snapshot. *)
Definition snapshot_keys : list str :=
  [py "direction"; py "speed"; py "battery"; py "temperature"; py "time"].

Definition fully_populated (c : client) : Prop :=
  forall k, k ∈ snapshot_keys -> is_Some (telemetry_data c !! k).

(** The socket calls among some events. *)
Definition socket_calls (ev : list event) : list event := List.filter is_sock ev.

Definition is_recv (e : event) : bool :=
  match e with Sock _ (Recv _) => true | _ => false end.

(** What the receive loop may do to a world: the connection fields, the
    script and the clock are left alone, no key leaves [telemetry_data], and
    the only socket calls are [recv]s. *)
Definition receive_only (w w' : world) : Prop :=
  server_socket (self w') = server_socket (self w) /\
  is_connected (self w') = is_connected (self w) /\
  should_receive (self w') = should_receive (self w) /\
  host (self w') = host (self w) /\
  port (self w') = port (self w) /\
  script w' = script w /\
  sockets w' = sockets w /\
  clock w' = clock w /\
  (forall k, is_Some (telemetry_data (self w) !! k) ->
             is_Some (telemetry_data (self w') !! k)) /\
  exists ev, trace w' = trace w ++ ev /\
             Forall (fun e => is_sock e = true -> is_recv e = true) ev.

(** A computation that does no more than the receive loop may. *)
Definition receiving {A} (m : M A) : Prop :=
  forall w o w', m w = (o, w') -> receive_only w w'.

(** The world with the [recv] calls left out of its trace. *)
Definition without_recv (w : world) : world :=
  World (self w) (script w) (sockets w) (clock w)
        (List.filter (fun e => negb (is_recv e)) (trace w)).

(** Two results of a call that differ in their [recv] calls at most. *)
Definition same_but_recv {A} (r r' : outcome A * world) : Prop :=
  r.1 = r'.1 /\ without_recv r.2 = without_recv r'.2.

(** A computation that does not depend on the [recv] calls made so far. *)
Definition recv_blind {A} (m : M A) : Prop :=
  forall w w', without_recv w = without_recv w' -> same_but_recv (m w) (m w').



Arguments py : simpl never.

(** ** Tactics *)

(** Running monadic code on a world given by its fields: the operations of
    [M] and the field accesses are unfolded by value, so that the world is
    never copied unevaluated. *)
Ltac run :=
  cbv beta iota zeta delta
    [mbind M_bind bind mret M_ret ret raise try_ get_self set_self emit now
     environment log_command after update_telemetry_display call
     with_trace with_self self script sockets clock trace
     server_socket host port is_connected should_receive telemetry_data
     set_telemetry set_server_socket set_is_connected set_should_receive
     apply_telemetry andb negb].

Ltac open_world w :=
  destruct w as [[?sk ?h ?p ?ic ?sr ?td] ?sc ?n ?clk ?tr].

Ltac keys_differ := let H := fresh in intros H; vm_compute in H; discriminate H.

Ltac not_in :=
  let H := fresh in
  intros H; apply list_elem_of_In in H; vm_compute in H; intuition discriminate.

Ltac next_call sc := destruct sc as [|[?e|] sc].

Ltac in_events :=
  repeat first [ apply list_elem_of_here | apply list_elem_of_further ].

Ltac created_is_closed :=
  let s := fresh "s" in
  let H := fresh "H" in
  intros s H;
  repeat (apply elem_of_cons in H as [H|H];
          [ try discriminate H; injection H as ->; in_events | ]);
  inversion H.

Ltac no_failure H :=
  exfalso; cbn [take] in H;
  repeat (apply elem_of_cons in H as [H|H]; [discriminate H|]); inversion H.

Ltac connect_failed :=
  run; eexists _, _; split; [reflexivity|];
  split; [rewrite <- ?app_assoc; reflexivity|];
  split; [reflexivity|]; split; [reflexivity|];
  split; [simpl; lia|]; split; [simpl; lia|]; created_is_closed.

Ltac failed_at sc e :=
  destruct e; (next_call sc; connect_failed).

(** ** Text *)



Lemma split_without_sep (sep : N) (s : str) :
  sep ∉ s -> split sep s = [s].
Proof.
  induction s as [|c s IH]; intros H; simpl; [done|].
  destruct (N.eqb_spec c sep) as [->|Hc].
  - exfalso. apply H. left.
  - rewrite IH; [done|]. intros Hin. apply H. by right.
Qed.

Lemma split_once_first (line rest : str) :
  nl ∉ line -> split_once nl (line ++ nl :: rest) = Some (line, rest).
Proof.
  induction line as [|c line IH]; intros Hnl; simpl.
  - reflexivity.
  - destruct (N.eqb_spec c nl) as [->|Hc].
    + exfalso. apply Hnl. left.
    + rewrite IH; [reflexivity|]. intros Hin. apply Hnl. by right.
Qed.

Lemma split_once_some (s a b : str) :
  split_once nl s = Some (a, b) -> s = a ++ nl :: b /\ nl ∉ a.
Proof.
  revert a b. induction s as [|c s IH]; intros a b H; simpl in H; [discriminate|].
  destruct (N.eqb_spec c nl) as [->|Hc].
  - injection H as <- <-. split; [reflexivity|]. apply not_elem_of_nil.
  - destruct (split_once nl s) as [[a' b']|]; [|discriminate].
    injection H as <- <-. destruct (IH a' b' eq_refl) as [-> Hn].
    split; [reflexivity|]. intros Hin. apply elem_of_cons in Hin as [Heq|Hin]; auto.
Qed.


Lemma not_telemetry_nonempty (sub line : str) :
  contains sub line = true -> sub <> [] -> line <> [].
Proof. intros H Hs ->. destruct sub; [done | discriminate H]. Qed.

Lemma split_nonempty (sep : N) (s : str) : split sep s <> [].
Proof.
  destruct s as [|c s]; simpl; [done|].
  destruct (c =? sep); [done|]. by destruct (split sep s).
Qed.

Lemma lstrip_with_snoc (p : N -> bool) (c : N) (s : str) :
  p c = true ->
  (lstrip_with p (s ++ [c]) = [] /\ lstrip_with p s = [])
  \/ lstrip_with p (s ++ [c]) = lstrip_with p s ++ [c].
Proof.
  intros Hc. induction s as [|x s IH]; simpl.
  - rewrite Hc. by left.
  - destruct (p x); [exact IH | by right].
Qed.

Lemma strip_with_snoc (p : N -> bool) (c : N) (s : str) :
  p c = true -> strip_with p (s ++ [c]) = strip_with p s.
Proof.
  intros Hc. unfold strip_with, rstrip_with.
  destruct (lstrip_with_snoc p c s Hc) as [[-> ->]| ->]; [reflexivity|].
  rewrite rev_unit. simpl. by rewrite Hc.
Qed.

Lemma strip_with_cons (p : N -> bool) (c : N) (s : str) :
  p c = true -> strip_with p (c :: s) = strip_with p s.
Proof. intros Hc. unfold strip_with. simpl. by rewrite Hc. Qed.

Lemma strip_surrounded (pre post s : str) :
  Forall (fun c => is_space c = true) pre ->
  Forall (fun c => is_space c = true) post ->
  strip (pre ++ s ++ post) = strip s.
Proof.
  intros Hpre Hpost. unfold strip.
  induction Hpre as [|c pre Hc _ IH]; simpl.
  - induction post as [|c post IH] using rev_ind.
    + by rewrite app_nil_r.
    + apply Forall_app in Hpost as [Hpost Hc]. rewrite Forall_singleton in Hc.
      rewrite app_assoc, strip_with_snoc by exact Hc. by apply IH.
  - rewrite strip_with_cons by exact Hc. exact IH.
Qed.

Lemma rstrip_with_keep (p : N -> bool) (c : N) (s : str) :
  p c = false -> rstrip_with p (s ++ [c]) = s ++ [c].
Proof.
  intros Hc. unfold rstrip_with. rewrite rev_unit. simpl. rewrite Hc.
  simpl. by rewrite rev_involutive.
Qed.

Lemma lstrip_with_keep_last (p : N -> bool) (c : N) (s : str) :
  p c = false -> lstrip_with p (s ++ [c]) = lstrip_with p s ++ [c].
Proof.
  intros Hc. induction s as [|x s IH]; simpl.
  - by rewrite Hc.
  - destruct (p x); [exact IH | reflexivity].
Qed.

Lemma split_lstrip (p : N -> bool) (sep : N) (t : str) (i : nat) :
  p sep = false ->
  split sep (lstrip_with p t) !! S i = split sep t !! S i.
Proof.
  intros Hsep. induction t as [|x t IH]; simpl; [reflexivity|].
  destruct (p x) eqn:Hx; [|reflexivity].
  destruct (N.eqb_spec x sep) as [->|Hne]; [congruence|].
  rewrite IH. destruct (split sep t) as [|w ws] eqn:E; [|reflexivity].
  by apply split_nonempty in E.
Qed.

Lemma split_at_first (sep : N) (a b : str) :
  sep ∉ a -> split sep (a ++ sep :: b) = a :: split sep b.
Proof.
  intros Ha. induction a as [|c a IH]; simpl.
  - by rewrite N.eqb_refl.
  - destruct (N.eqb_spec c sep) as [->|Hc]; [exfalso; apply Ha; left|].
    rewrite IH; [reflexivity|]. intros H. apply Ha. by right.
Qed.

Lemma token_after_first_eq_split (line v : str) :
  token_after_first_eq line v -> split eq_sign line !! 1%nat = Some v.
Proof.
  intros (key & rest & -> & Hkey & Hv & [->|[r ->]]).
  - rewrite split_at_first, app_nil_r, split_without_sep by assumption. reflexivity.
  - rewrite !split_at_first by assumption. reflexivity.
Qed.

(** The trim of [strip("OK ")] leaves element 1 alone when the line does not
    end in one of its characters. *)
Lemma ack_value (s : str) (c : N) :
  mem c (py "OK ") = false ->
  split eq_sign (strip_chars (py "OK ") (s ++ [c])) !! 1%nat
  = split eq_sign (s ++ [c]) !! 1%nat.
Proof.
  intros Hc. unfold strip_chars, strip_with.
  rewrite lstrip_with_keep_last, rstrip_with_keep by exact Hc.
  rewrite <- (lstrip_with_keep_last (fun c0 => mem c0 (py "OK "))) by exact Hc.
  by apply split_lstrip.
Qed.

Lemma starts_with_prefix (p s : str) :
  starts_with p s = true <-> exists b, s = p ++ b.
Proof.
  revert s. induction p as [|a p IH]; intros s; simpl.
  - split; [by exists s | done].
  - destruct s as [|b s].
    + split; [done | by intros [? ?]].
    + rewrite andb_true_iff, N.eqb_eq, IH. split.
      * intros [-> [t ->]]. by exists t.
      * intros [t [= -> ->]]. eauto.
Qed.

Lemma contains_occurs (sub s : str) : contains sub s = true <-> occurs sub s.
Proof.
  unfold occurs. induction s as [|c r IH]; simpl.
  - rewrite orb_false_r, starts_with_prefix. split.
    + intros [b H]. by exists [], b.
    + intros (a & b & H). destruct a; [by exists b|discriminate].
  - rewrite orb_true_iff, starts_with_prefix, IH. split.
    + intros [[b H]|(a & b & ->)]; [by exists [], b | by exists (c :: a), b].
    + intros (a & b & H). destruct a as [|x a]; [left; by exists b|].
      right. injection H as -> ->. by exists a, b.
Qed.

Lemma not_contains_occurs (sub s : str) : ~ occurs sub s -> contains sub s = false.
Proof.
  intros H. destruct (contains sub s) eqn:E; [|reflexivity].
  by apply contains_occurs in E.
Qed.

Lemma lstrip_with_split (p : N -> bool) (s : str) :
  exists pre, s = pre ++ lstrip_with p s /\ Forall (fun c => p c = true) pre.
Proof.
  induction s as [|c s (pre & IH & Hpre)]; simpl.
  - by exists [].
  - destruct (p c) eqn:Hc.
    + exists (c :: pre). split; [by rewrite <- app_comm_cons, <- IH | by constructor].
    + by exists [].
Qed.

Lemma lstrip_with_head (p : N -> bool) (s : str) (c : N) (r : str) :
  lstrip_with p s = c :: r -> p c = false.
Proof.
  induction s as [|x s IH]; simpl; [discriminate|].
  destruct (p x) eqn:Hx; [exact IH|]. by intros [= <- _].
Qed.

(** [strip] takes whitespace off both ends, and all of it. *)
Lemma strip_with_split (p : N -> bool) (s : str) :
  exists pre post,
    s = pre ++ strip_with p s ++ post /\
    Forall (fun c => p c = true) pre /\ Forall (fun c => p c = true) post.
Proof.
  unfold strip_with, rstrip_with.
  destruct (lstrip_with_split p s) as (pre & Hs & Hpre).
  destruct (lstrip_with_split p (rev (lstrip_with p s))) as (post & Ht & Hpost).
  exists pre, (rev post). split; [|split; [exact Hpre|]].
  - rewrite <- rev_app_distr, <- Ht, rev_involutive. exact Hs.
  - apply Forall_forall. intros c Hc. rewrite Forall_forall in Hpost.
    apply Hpost. by apply list_elem_of_In, in_rev, list_elem_of_In in Hc.
Qed.

Lemma strip_with_ends (p : N -> bool) (s : str) :
  (forall c r, strip_with p s = c :: r -> p c = false) /\
  (forall r c, strip_with p s = r ++ [c] -> p c = false).
Proof.
  unfold strip_with, rstrip_with.
  destruct (lstrip_with_split p (rev (lstrip_with p s))) as (post & Ht & _).
  split.
  - intros c r H.
    apply (f_equal (@rev N)) in Ht. rewrite rev_involutive, rev_app_distr, H in Ht.
    eapply lstrip_with_head. exact Ht.
  - intros r c H. apply (f_equal (@rev N)) in H.
    rewrite rev_involutive, rev_unit in H.
    eapply lstrip_with_head. exact H.
Qed.

(** ** The codec *)

Lemma decode_cons (b0 : byte) (r0 : bytes) :
  Utf8.decode (b0 :: r0) =
    let n0 := Byte.to_N b0 in
    if n0 <? 128 then cons n0 <$> Utf8.decode r0
    else if Utf8.within 194 223 n0 then
      match r0 with
      | b1 :: r1 =>
          let n1 := Byte.to_N b1 in
          if Utf8.cont n1
          then cons (N.shiftl (N.land n0 31) 6 + Utf8.low6 n1) <$> Utf8.decode r1
          else None
      | [] => None
      end
    else if Utf8.within 224 239 n0 then
      match r0 with
      | b1 :: b2 :: r2 =>
          let n1 := Byte.to_N b1 in
          let n2 := Byte.to_N b2 in
          if Utf8.within (if n0 =? 224 then 160 else 128)
                         (if n0 =? 237 then 159 else 191) n1 && Utf8.cont n2
          then cons (N.shiftl (N.land n0 15) 12 + N.shiftl (Utf8.low6 n1) 6
                     + Utf8.low6 n2) <$> Utf8.decode r2
          else None
      | _ => None
      end
    else if Utf8.within 240 244 n0 then
      match r0 with
      | b1 :: b2 :: b3 :: r3 =>
          let n1 := Byte.to_N b1 in
          let n2 := Byte.to_N b2 in
          let n3 := Byte.to_N b3 in
          if Utf8.within (if n0 =? 240 then 144 else 128)
                         (if n0 =? 244 then 143 else 191) n1
             && Utf8.cont n2 && Utf8.cont n3
          then cons (N.shiftl (N.land n0 7) 18 + N.shiftl (Utf8.low6 n1) 12
                     + N.shiftl (Utf8.low6 n2) 6 + Utf8.low6 n3) <$> Utf8.decode r3
          else None
      | _ => None
      end
    else None.
Proof. reflexivity. Qed.

Lemma decode_step (c : N) (r b : bytes) (x : str) :
  (forall y, Utf8.decode r = Some y ->
             Utf8.decode (r ++ b) = app y <$> Utf8.decode b) ->
  cons c <$> Utf8.decode r = Some x ->
  cons c <$> Utf8.decode (r ++ b) = app x <$> Utf8.decode b.
Proof.
  intros IH Hx. destruct (Utf8.decode r) as [y|] eqn:E; [|discriminate Hx].
  injection Hx as <-. rewrite (IH y eq_refl).
  by destruct (Utf8.decode b).
Qed.

(** Decoding goes through concatenation when the first part decodes on
    its own. *)
Lemma decode_app (a b : bytes) (x : str) :
  Utf8.decode a = Some x ->
  Utf8.decode (a ++ b) = app x <$> Utf8.decode b.
Proof.
  revert x. induction a as [a IH] using (induction_ltof1 _ (@length _)).
  unfold ltof in IH. intros x Hx.
  destruct a as [|b0 r0].
  { injection Hx as <-. simpl. by destruct (Utf8.decode b). }
  rewrite <- app_comm_cons. rewrite decode_cons in Hx |- *. cbv zeta in Hx |- *.
  destruct (Byte.to_N b0 <? 128).
  { apply decode_step; [|exact Hx]. intros y. apply IH. simpl. lia. }
  destruct (Utf8.within 194 223 (Byte.to_N b0)).
  { destruct r0 as [|b1 r1]; [discriminate Hx|]. rewrite <- app_comm_cons.
    destruct (Utf8.cont (Byte.to_N b1)); [|discriminate Hx].
    apply decode_step; [|exact Hx]. intros y. apply IH. simpl. lia. }
  destruct (Utf8.within 224 239 (Byte.to_N b0)).
  { destruct r0 as [|b1 [|b2 r2]]; try discriminate Hx. rewrite <- !app_comm_cons.
    destruct (_ && _); [|discriminate Hx].
    apply decode_step; [|exact Hx]. intros y. apply IH. simpl. lia. }
  destruct (Utf8.within 240 244 (Byte.to_N b0)); [|discriminate Hx].
  destruct r0 as [|b1 [|b2 [|b3 r3]]]; try discriminate Hx. rewrite <- !app_comm_cons.
  destruct (_ && _); [|discriminate Hx].
  apply decode_step; [|exact Hx]. intros y. apply IH. simpl. lia.
Qed.

Lemma decode_concat (chunks : list bytes) (texts : list str) :
  Forall2 (fun c t => Utf8.decode c = Some t) chunks texts ->
  Utf8.decode (concat chunks) = Some (concat texts).
Proof.
  induction 1 as [|c t cs ts Hc _ IH]; simpl; [reflexivity|].
  rewrite (decode_app _ _ _ Hc), IH. reflexivity.
Qed.

(** ASCII octets always decode, to themselves. *)
Lemma decode_ascii (chunk : bytes) :
  Forall (fun b => Byte.to_N b < 128) chunk ->
  Utf8.decode chunk = Some (map Byte.to_N chunk).
Proof.
  induction 1 as [|b r Hb _ IH]; [reflexivity|].
  rewrite decode_cons. cbv zeta.
  apply N.ltb_lt in Hb. rewrite Hb, IH. reflexivity.
Qed.

Lemma encode_quit :
  Utf8.encode (py "QUIT" ++ [nl]) = Some ["Q"; "U"; "I"; "T"; "010"]%byte.
Proof. reflexivity. Qed.

Lemma encode_auth :
  Utf8.encode (py "AUTH admin admin123" ++ [nl])
  = Some (list_byte_of_string "AUTH admin admin123" ++ [x0a]).
Proof. reflexivity. Qed.

(** ** Dictionaries *)

Lemma dict_update_bad (items : list (list str)) :
  forall d, (exists item, item ∈ items /\ length item <> 2%nat) ->
  dict_update d items = None.
Proof.
  induction items as [|it items IH]; intros d [item [Hin Hlen]].
  - inversion Hin.
  - destruct it as [|k [|v [|x r]]]; simpl; try reflexivity.
    apply elem_of_cons in Hin as [Heq|Hin].
    + subst item. simpl in Hlen. lia.
    + apply IH. eauto.
Qed.

Lemma dict_update_lookup (items : list (list str)) (k : list N):
  forall d d', dict_update d items = Some d' ->
  (forall item, item ∈ items -> head item <> Some k) ->
  d' !! k = d !! k.
Proof.
  induction items as [|it items IH]; intros d d' H Hk; simpl in H.
  - congruence.
  - destruct it as [|k0 [|v [|x r]]]; try discriminate.
    rewrite (IH _ _ H).
    + apply lookup_insert_ne. intros ->. apply (Hk [k; v]); [left|reflexivity].
    + intros item Hin. apply Hk. by right.
Qed.

Lemma dict_update_ok (items : list (list str)) :
  Forall (fun item => length item = 2%nat) items ->
  forall d, exists d', dict_update d items = Some d'.
Proof.
  induction 1 as [|it items Hit _ IH]; intros d; [by exists d|].
  destruct it as [|k [|v [|x r]]]; try discriminate Hit. simpl. apply IH.
Qed.

(** ** Handling one line *)

Lemma handle_telemetry_ok (line : str) (w : world) (d : gmap (list N) (list N)) :
  line <> [] -> contains (py "TLM") line = true ->
  dict_update ∅ (telemetry_items line) = Some d ->
  handle_line line w =
    (Val tt,
     with_trace (with_self w (apply_telemetry d (clock w) (self w)))
       [LogCommand (Text (py "Telemetry received")); After CbUpdateTelemetryDisplay]).
Proof.
  intros Hne Htlm Hd. unfold handle_line, dict.
  rewrite bool_decide_eq_true_2 by done. rewrite Htlm, Hd.
  open_world w. run. rewrite <- app_assoc. reflexivity.
Qed.

Lemma handle_telemetry_bad (line : str) (w : world) :
  line <> [] -> contains (py "TLM") line = true ->
  dict_update ∅ (telemetry_items line) = None ->
  handle_line line w = (Exc ValueError, w).
Proof.
  intros Hne Htlm Hd. unfold handle_line, dict.
  rewrite bool_decide_eq_true_2 by done. rewrite Htlm, Hd. reflexivity.
Qed.

Lemma handle_direction (line : str) (w : world) :
  contains (py "TLM") line = false -> contains (py "dir") line = true ->
  handle_line line w =
    match split eq_sign (strip_chars (py "OK ") line) !! 1%nat with
    | Some v =>
        let c := set_telemetry (py "direction") v (self w) in
        (Val tt, with_trace (with_self w c) [UpdateTelemetryDisplay (telemetry_data c)])
    | None => (Exc IndexError, w)
    end.
Proof.
  intros Htlm Hdir. unfold handle_line, index.
  rewrite Htlm, Hdir, andb_false_r.
  rewrite bool_decide_eq_true_2 by (eapply not_telemetry_nonempty; [eassumption | discriminate]).
  destruct (split eq_sign (strip_chars (py "OK ") line) !! 1%nat); reflexivity.
Qed.

Lemma handle_speed (line : str) (w : world) :
  contains (py "TLM") line = false -> contains (py "dir") line = false ->
  contains (py "speed") line = true ->
  handle_line line w =
    match split eq_sign (strip_chars (py "OK ") line) !! 1%nat with
    | Some v =>
        let c := set_telemetry (py "speed") v (self w) in
        (Val tt, with_trace (with_self w c) [UpdateTelemetryDisplay (telemetry_data c)])
    | None => (Exc IndexError, w)
    end.
Proof.
  intros Htlm Hdir Hsp. unfold handle_line, index.
  rewrite Htlm, Hdir, Hsp, !andb_false_r.
  rewrite bool_decide_eq_true_2 by (eapply not_telemetry_nonempty; [eassumption | discriminate]).
  destruct (split eq_sign (strip_chars (py "OK ") line) !! 1%nat); reflexivity.
Qed.

Lemma handle_other (line : str) (w : world) :
  contains (py "TLM") line = false -> contains (py "dir") line = false ->
  contains (py "speed") line = false ->
  handle_line line w =
    if bool_decide (line <> [])
    then (Val tt, with_trace w [After (CbLog (Text (py "Server: " ++ line)))])
    else (Val tt, w).
Proof.
  intros Htlm Hdir Hsp. unfold handle_line.
  rewrite Htlm, Hdir, Hsp, !andb_false_r.
  destruct (bool_decide (line <> [])); reflexivity.
Qed.

Lemma apply_telemetry_fields (d : gmap (list N) (list N)) (t : str) (c : client) :
  let td := telemetry_data (apply_telemetry d t c) in
  td !! py "speed" = Some (default (py "0.0") (d !! py "speed")) /\
  td !! py "battery" = Some (default (py "0.0") (d !! py "battery")) /\
  td !! py "time" = Some (default t (d !! py "ts")) /\
  td !! py "temperature" = Some (default (py "0.0") (d !! py "temp")) /\
  td !! py "direction" = Some (default (py "N") (d !! py "dir")).
Proof.
  unfold apply_telemetry, set_telemetry. simpl.
  repeat split;
    repeat (first [ apply lookup_insert_eq
                  | rewrite lookup_insert_ne by keys_differ ]).
Qed.



(** ** The receive loop *)

Lemma drain_first (k : nat) (line rest : str) :
  nl ∉ line ->
  drain (S k) (line ++ nl :: rest) = (handle_line (strip line);; drain k rest).
Proof. intros H. simpl. rewrite (split_once_first _ _ H). reflexivity. Qed.





Lemma drain_lines (fuel : nat) :
  forall buffer w,
    (length buffer <= fuel)%nat ->
    drain fuel buffer w =
      (handle_lines (complete_lines fuel buffer).1;;
       mret (complete_lines fuel buffer).2) w.
Proof.
  induction fuel as [|k IH]; intros buffer w Hlen.
  - destruct buffer; [reflexivity | simpl in Hlen; lia].
  - simpl. destruct (split_once nl buffer) as [[a b]|] eqn:E; [|reflexivity].
    apply split_once_some in E as [-> Ha].
    assert (Hb : (length b <= k)%nat)
      by (rewrite length_app in Hlen; simpl in Hlen; lia).
    destruct (complete_lines k b) as [ls r] eqn:Eb. simpl.
    unfold mbind, M_bind, bind.
    destruct (handle_line (strip a) w) as [[[]|e|] w1]; try reflexivity.
    rewrite (IH b w1 Hb), Eb. reflexivity.
Qed.



(** A turn of the outer loop on a non-empty chunk that decodes handles the
    lines [feed] lists and goes on with the buffer [feed] leaves. *)
Lemma receive_step_lines (w w' : world) (s : nat) (buffer data : str) (raw : bytes) :
  server_socket (self w) = Some s ->
  Utf8.decode raw = Some data -> data <> [] ->
  handle_lines (feed buffer data).1 (with_trace w [Sock s (Recv 1024)]) = (Val tt, w') ->
  receive_step buffer (Data raw) w = (Val (Some (feed buffer data).2), w').
Proof.
  intros Hs Hdec Hne Hrun.
  unfold receive_step, recv. open_world w. simpl in Hs. subst sk. run.
  unfold decode. rewrite Hdec. run.
  destruct data as [|c data]; [done|].
  rewrite drain_lines by lia. unfold feed in Hrun |- *.
  revert Hrun. run. intros ->. reflexivity.
Qed.

(** A line whose handling raises ends the turn of the outer loop in the
    handler: nothing after it in the buffer is handled. *)
Lemma receive_step_raises (w : world) (s : nat) (buffer data raw_line rest : str)
      (raw : bytes) (e : exn) :
  server_socket (self w) = Some s ->
  Utf8.decode raw = Some data -> data <> [] ->
  buffer ++ data = raw_line ++ nl :: rest ->
  nl ∉ raw_line ->
  (forall w', handle_line (strip raw_line) w' = (Exc e, w')) ->
  receive_step buffer (Data raw) w =
    (Val None,
     with_trace w
       (Sock s (Recv 1024)
        :: if should_receive (self w)
           then [After (CbLog (WithExn (py "ERROR receiving data: ") e));
                 After CbDisconnect]
           else [])).
Proof.
  intros Hs Hdec Hne Hbuf Hnl Hraise.
  unfold receive_step, recv. open_world w. simpl in Hs. subst sk. run.
  unfold decode. rewrite Hdec. run.
  destruct data as [|c data]; [done|].
  rewrite Hbuf.
  replace (length (raw_line ++ nl :: rest))
    with (S (length (raw_line ++ rest))) by (rewrite !length_app; simpl; lia).
  rewrite drain_first by assumption. run. rewrite Hraise.
  destruct sr; rewrite <- ?app_assoc; reflexivity.
Qed.

Lemma receive_loop_raises (w : world) (s : nat) (buffer data raw_line rest : str)
      (raw : bytes) (inbound : list recv_result) (e : exn) :
  server_socket (self w) = Some s ->
  is_connected (self w) = true -> should_receive (self w) = true ->
  Utf8.decode raw = Some data -> data <> [] ->
  buffer ++ data = raw_line ++ nl :: rest ->
  nl ∉ raw_line ->
  (forall w', handle_line (strip raw_line) w' = (Exc e, w')) ->
  receive_loop_from buffer (Data raw :: inbound) w =
    (Val Exited,
     with_trace w
       [Sock s (Recv 1024);
        After (CbLog (WithExn (py "ERROR receiving data: ") e));
        After CbDisconnect]).
Proof.
  intros Hs Hc Hr Hdec Hne Hbuf Hnl Hraise.
  pose proof (receive_step_raises w s buffer data raw_line rest raw e
                Hs Hdec Hne Hbuf Hnl Hraise) as Hstep.
  rewrite Hr in Hstep.
  cbn [receive_loop_from]. unfold mbind at 1, M_bind at 1, bind at 1, get_self at 1.
  rewrite Hr, Hc. cbn [andb].
  unfold mbind at 1, M_bind at 1, bind at 1. rewrite Hstep. reflexivity.
Qed.

(** ** Connecting and disconnecting *)

(** [disconnect] always returns, and leaves the client disconnected. *)
Lemma disconnect_returns (w : world) :
  exists w', disconnect w = (Val tt, w') /\ is_connected (self w') = false.
Proof.
  open_world w.
  unfold disconnect, cleanup_socket, encode. rewrite encode_quit.
  destruct ic; [|run; eauto].
  destruct sk as [s|]; [|run; eauto].
  destruct sc as [|[e1|] [|[e2|] sc]]; run; eauto.
Qed.

(** With no failing call [connect] ends connected, in the state [session]
    stands for. *)
Lemma connect_succeeds (t : str) :
  exists w', connect (initial_world t []) = (Val tt, w') /\
             self w' = self (session t) /\
             List.filter is_sock (trace w') =
               [Sock 0 Create; Sock 0 (SetTimeout (Some 5));
                Sock 0 (Connect (py "127.0.0.1") 9000); Sock 0 (SetTimeout None);
                Sock 0 (Send (octets "AUTH admin admin123" ++ [x0a]))].
Proof.
  unfold connect, new_socket, created, start_receive_thread, encode, initial_world,
    initial_client.
  rewrite encode_auth. run. eexists. split; [reflexivity|]. split; reflexivity.
Qed.

(** ** The claims of the specification *)

(** Claim C1, as amended.  A telemetry line (one that contains [TLM]) with
    a pair that does not split on [=] into exactly two parts makes [dict]
    raise [ValueError] before any field of [telemetry_data] is written:
    handling leaves the world as it was, so no pair of the line is applied,
    and the code has no parse warning to emit.  In the receive loop the
    catch-all handler then posts one receive-error log and [disconnect] to
    the event loop, and the loop is left. *)
Theorem malformed_pair_ends_session
    (w : world) (s : nat) (buffer data raw_line rest : str) (raw : bytes)
    (inbound : list recv_result) (item : list str) :
  server_socket (self w) = Some s ->
  is_connected (self w) = true -> should_receive (self w) = true ->
  Utf8.decode raw = Some data -> data <> [] ->
  buffer ++ data = raw_line ++ nl :: rest -> nl ∉ raw_line ->
  contains (py "TLM") (strip raw_line) = true ->
  item ∈ telemetry_items (strip raw_line) -> length item <> 2%nat ->
  handle_line (strip raw_line) w = (Exc ValueError, w) /\
  receive_loop_from buffer (Data raw :: inbound) w =
    (Val Exited,
     with_trace w
       [Sock s (Recv 1024);
        After (CbLog (WithExn (py "ERROR receiving data: ") ValueError));
        After CbDisconnect]).
Proof.
  intros Hs Hc Hr Hdec Hne Hbuf Hnl Htlm Hin Hlen.
  assert (Hraise : forall w', handle_line (strip raw_line) w' = (Exc ValueError, w')).
  { intros w'. apply handle_telemetry_bad.
    - eapply not_telemetry_nonempty; [exact Htlm | discriminate].
    - exact Htlm.
    - apply dict_update_bad. eauto. }
  split; [apply Hraise|].
  eapply receive_loop_raises; eassumption.
Qed.

Lemma malformed_pair_ends_session_witness :
  handle_line (py "TLM speed=10;garbage;dir=S") (session (py "12:00:00"))
    = (Exc ValueError, session (py "12:00:00")) /\
  receive_loop_from [] [Data (octets "TLM speed=10;garbage;dir=S" ++ [x0a])]
                    (session (py "12:00:00")) =
    (Val Exited,
     with_trace (session (py "12:00:00"))
       [Sock 0 (Recv 1024);
        After (CbLog (WithExn (py "ERROR receiving data: ") ValueError));
        After CbDisconnect]).
Proof.
  apply (malformed_pair_ends_session (session (py "12:00:00")) 0 []
           (py "TLM speed=10;garbage;dir=S" ++ [nl])
           (py "TLM speed=10;garbage;dir=S") []
           (octets "TLM speed=10;garbage;dir=S" ++ [x0a]) [] [py "garbage"]).
  - reflexivity.
  - reflexivity.
  - reflexivity.
  - reflexivity.
  - vm_compute. discriminate.
  - reflexivity.
  - not_in.
  - reflexivity.
  - vm_compute. right. left.
  - vm_compute. discriminate.
Defined.

(** Claim C1 as stated fails on the line [TLM speed=10;garbage;dir=S]:
    after it the speed is still "0.0" and the direction still "N" (neither
    [speed=10] nor [dir=S] is applied), and what the loop emits is a
    receive error and a posted [disconnect], then it stops. *)
Lemma malformed_pair_drops_the_line :
  exists w',
    receive_loop [Data (octets "TLM speed=10;garbage;dir=S" ++ [x0a])]
                 (session (py "12:00:00")) = (Val Exited, w') /\
    telemetry_data (self w') !! py "speed" = Some (py "0.0") /\
    telemetry_data (self w') !! py "direction" = Some (py "N") /\
    telemetry_data (self w') !! py "speed" <> Some (py "10") /\
    telemetry_data (self w') !! py "direction" <> Some (py "S") /\
    trace w' =
      [Sock 0 (Recv 1024);
       After (CbLog (WithExn (py "ERROR receiving data: ") ValueError));
       After CbDisconnect].
Proof.
  eexists. split; [vm_compute; reflexivity|].
  repeat split; try (vm_compute; reflexivity); vm_compute; discriminate.
Qed.

(** Claim C2, as amended.  For a line without [TLM] that contains [dir],
    holds an [=] and does not end in [O], [K] or a space, the direction
    becomes the token after the first [=] of the line (the text up to the
    next [=] or to the end), and every other key of [telemetry_data] keeps
    its value; a line that contains [speed] (and not [dir]) sets the speed
    by the same rule. *)
Theorem partial_ack_sets_one_field (s : str) (c : N) (w : world) (v : str) :
  contains (py "TLM") (s ++ [c]) = false ->
  mem c (py "OK ") = false ->
  token_after_first_eq (s ++ [c]) v ->
  (contains (py "dir") (s ++ [c]) = true ->
   exists w',
     handle_line (s ++ [c]) w = (Val tt, w') /\
     telemetry_data (self w') = <[py "direction" := v]> (telemetry_data (self w)) /\
     telemetry_data (self w') !! py "direction" = Some v /\
     (forall k, k <> py "direction" ->
                telemetry_data (self w') !! k = telemetry_data (self w) !! k))
  /\
  (contains (py "dir") (s ++ [c]) = false -> contains (py "speed") (s ++ [c]) = true ->
   exists w',
     handle_line (s ++ [c]) w = (Val tt, w') /\
     telemetry_data (self w') = <[py "speed" := v]> (telemetry_data (self w)) /\
     telemetry_data (self w') !! py "speed" = Some v /\
     (forall k, k <> py "speed" ->
                telemetry_data (self w') !! k = telemetry_data (self w) !! k)).
Proof.
  intros Htlm Hc Hv. apply token_after_first_eq_split in Hv.
  rewrite <- (ack_value s c Hc) in Hv. split.
  - intros Hdir. eexists. split.
    + rewrite handle_direction, Hv by assumption. reflexivity.
    + simpl. split; [reflexivity|]. split; [apply lookup_insert_eq|].
      intros k Hk. by apply lookup_insert_ne.
  - intros Hdir Hsp. eexists. split.
    + rewrite handle_speed, Hv by assumption. reflexivity.
    + simpl. split; [reflexivity|]. split; [apply lookup_insert_eq|].
      intros k Hk. by apply lookup_insert_ne.
Qed.

Lemma partial_ack_sets_one_field_witness :
  (exists w',
      handle_line (py "OK dir=" ++ [87]) (session (py "12:00:00")) = (Val tt, w') /\
      telemetry_data (self w')
        = <[py "direction" := py "W"]>
            (telemetry_data (self (session (py "12:00:00")))) /\
      telemetry_data (self w') !! py "direction" = Some (py "W") /\
      (forall k, k <> py "direction" ->
                 telemetry_data (self w') !! k
                 = telemetry_data (self (session (py "12:00:00"))) !! k))
  /\
  (exists w',
      handle_line (py "OK speed=1" ++ [50]) (session (py "12:00:00")) = (Val tt, w') /\
      telemetry_data (self w')
        = <[py "speed" := py "12"]>
            (telemetry_data (self (session (py "12:00:00")))) /\
      telemetry_data (self w') !! py "speed" = Some (py "12") /\
      (forall k, k <> py "speed" ->
                 telemetry_data (self w') !! k
                 = telemetry_data (self (session (py "12:00:00"))) !! k)).
Proof.
  assert (Hdir : token_after_first_eq (py "OK dir=" ++ [87]) (py "W")).
  { exists (py "OK dir"), []. repeat split; [not_in | not_in | by left]. }
  assert (Hspeed : token_after_first_eq (py "OK speed=1" ++ [50]) (py "12")).
  { exists (py "OK speed"), []. repeat split; [not_in | not_in | by left]. }
  split.
  - apply (proj1 (partial_ack_sets_one_field (py "OK dir=") 87
                    (session (py "12:00:00")) (py "W") eq_refl eq_refl Hdir)).
    reflexivity.
  - apply (proj2 (partial_ack_sets_one_field (py "OK speed=1") 50
                    (session (py "12:00:00")) (py "12") eq_refl eq_refl Hspeed));
      reflexivity.
Defined.

(** Claim C2 as stated fails on the line [dir=a=b]: the direction becomes
    "a", while the token after the last [=] of the line is "b". *)
Lemma partial_ack_not_last_token :
  exists w',
    handle_line (py "dir=a=b") (session (py "12:00:00")) = (Val tt, w') /\
    telemetry_data (self w') !! py "direction" = Some (py "a") /\
    spec_token_after_last_eq (py "dir=a=b") = py "b" /\
    telemetry_data (self w') !! py "direction"
      <> Some (spec_token_after_last_eq (py "dir=a=b")).
Proof.
  eexists. split; [vm_compute; reflexivity|].
  repeat split; try (vm_compute; reflexivity). vm_compute. discriminate.
Qed.

(** Claim C3, as amended.  The line
    [TLM speed=12.5;battery=73;ts=09:15:00;temp=41;dir=E] sets speed "12.5",
    battery "73", time "09:15:00", temperature "41" and direction "E"; and
    for every telemetry line all of whose pairs split on [=] into exactly a
    key and a value, each of the five fields is the value the line gives for
    its key, or else its default: "0.0" for speed, battery and temperature,
    "N" for the direction, and the current time of day when [ts] is
    absent. *)
Theorem telemetry_snapshot_and_defaults :
  (forall w, exists w',
      handle_line (py "TLM speed=12.5;battery=73;ts=09:15:00;temp=41;dir=E") w
      = (Val tt, w') /\
      let td := telemetry_data (self w') in
      td !! py "speed" = Some (py "12.5") /\
      td !! py "battery" = Some (py "73") /\
      td !! py "time" = Some (py "09:15:00") /\
      td !! py "temperature" = Some (py "41") /\
      td !! py "direction" = Some (py "E"))
  /\
  (forall line w,
      line <> [] -> contains (py "TLM") line = true ->
      Forall (fun item => length item = 2%nat) (telemetry_items line) ->
      exists d w',
        dict_update ∅ (telemetry_items line) = Some d /\
        handle_line line w = (Val tt, w') /\
        let td := telemetry_data (self w') in
        td !! py "speed" = Some (default (py "0.0") (d !! py "speed")) /\
        td !! py "battery" = Some (default (py "0.0") (d !! py "battery")) /\
        td !! py "time" = Some (default (clock w) (d !! py "ts")) /\
        td !! py "temperature" = Some (default (py "0.0") (d !! py "temp")) /\
        td !! py "direction" = Some (default (py "N") (d !! py "dir")) /\
        (absent (py "speed") line -> td !! py "speed" = Some (py "0.0")) /\
        (absent (py "battery") line -> td !! py "battery" = Some (py "0.0")) /\
        (absent (py "ts") line -> td !! py "time" = Some (clock w)) /\
        (absent (py "temp") line -> td !! py "temperature" = Some (py "0.0")) /\
        (absent (py "dir") line -> td !! py "direction" = Some (py "N"))).
Proof.
  assert (general : forall line w d,
      line <> [] -> contains (py "TLM") line = true ->
      dict_update ∅ (telemetry_items line) = Some d ->
      exists w',
        handle_line line w = (Val tt, w') /\
        let td := telemetry_data (self w') in
        td !! py "speed" = Some (default (py "0.0") (d !! py "speed")) /\
        td !! py "battery" = Some (default (py "0.0") (d !! py "battery")) /\
        td !! py "time" = Some (default (clock w) (d !! py "ts")) /\
        td !! py "temperature" = Some (default (py "0.0") (d !! py "temp")) /\
        td !! py "direction" = Some (default (py "N") (d !! py "dir"))).
  { intros line w d Hne Htlm Hd. eexists. split.
    - apply handle_telemetry_ok; eassumption.
    - apply apply_telemetry_fields. }
  split.
  - intros w.
    destruct (general (py "TLM speed=12.5;battery=73;ts=09:15:00;temp=41;dir=E") w
                (list_to_map [(py "speed", py "12.5"); (py "battery", py "73");
                              (py "ts", py "09:15:00"); (py "temp", py "41");
                              (py "dir", py "E")]))
      as (w' & Hrun & Hs & Hb & Ht & Hte & Hd);
      [ keys_differ | reflexivity | vm_compute; reflexivity | ].
    exists w'. split; [exact Hrun|]. simpl.
    rewrite Hs, Hb, Ht, Hte, Hd. repeat split.
  - intros line w Hne Htlm Hpairs.
    destruct (dict_update_ok _ Hpairs ∅) as [d Hd].
    destruct (general line w d Hne Htlm Hd) as (w' & Hrun & Hs & Hb & Ht & Hte & Hdi).
    exists d, w'. split; [exact Hd|]. split; [exact Hrun|]. simpl.
    repeat split; try assumption; intros Habs;
      match goal with
      | H : absent ?k _ |- _ =>
          pose proof (dict_update_lookup _ k _ _ Hd H) as Hk;
          rewrite lookup_empty in Hk
      end.
    + rewrite Hs, Hk. reflexivity.
    + rewrite Hb, Hk. reflexivity.
    + rewrite Ht, Hk. reflexivity.
    + rewrite Hte, Hk. reflexivity.
    + rewrite Hdi, Hk. reflexivity.
Qed.

Lemma telemetry_snapshot_and_defaults_witness :
  exists w',
    handle_line (py "TLM battery=50") (session (py "12:00:00")) = (Val tt, w') /\
    let td := telemetry_data (self w') in
    td !! py "speed" = Some (py "0.0") /\
    td !! py "battery" = Some (py "50") /\
    td !! py "time" = Some (py "12:00:00") /\
    td !! py "temperature" = Some (py "0.0") /\
    td !! py "direction" = Some (py "N").
Proof.
  destruct (proj2 telemetry_snapshot_and_defaults (py "TLM battery=50")
              (session (py "12:00:00")))
    as (d & w' & Hd & Hrun & Hs & Hb & Ht & Hte & Hdi & _).
  - vm_compute. discriminate.
  - reflexivity.
  - repeat constructor.
  - exists w'. split; [exact Hrun|].
    assert (d = {[ py "battery" := py "50" ]}) as ->
      by (vm_compute in Hd; injection Hd as <-; reflexivity).
    repeat split; assumption.
Defined.

(** Claim C3 as stated fails on the telemetry line [TLM battery=50;], which
    has missing keys: the empty text after the semicolon makes the line
    raise, so no default is applied and the battery is not set either; a
    speed of "7" stays "7". *)
Lemma missing_keys_without_defaults :
  let w := with_self (session (py "12:00:00"))
             (set_telemetry (py "speed") (py "7") (self (session (py "12:00:00")))) in
  handle_line (py "TLM battery=50;") w = (Exc ValueError, w) /\
  telemetry_data (self w) !! py "speed" = Some (py "7") /\
  telemetry_data (self w) !! py "speed" <> Some (py "0.0") /\
  telemetry_data (self w) !! py "battery" <> Some (py "50").
Proof.
  repeat split; try (vm_compute; reflexivity); vm_compute; discriminate.
Qed.

(** Claim C4, what the code does at the failing input.  The line [é]
    (bytes C3 A9) with its newline is posted as a log message when the
    three bytes come in one read; when the reads are C3 and then A9 0A, the
    first chunk does not decode on its own: the loop ends in its handler,
    the connection is to be torn down, and no line is ever handled. *)
Theorem split_character_ends_session (t : str) :
  receive_loop [Data [xc3; xa9; x0a]] (session t)
    = (Val Waiting,
       with_trace (session t)
         [Sock 0 (Recv 1024); After (CbLog (Text (py "Server: " ++ [233])))])
  /\
  receive_loop [Data [xc3]; Data [xa9; x0a]] (session t)
    = (Val Exited,
       with_trace (session t)
         [Sock 0 (Recv 1024);
          After (CbLog (WithExn (py "ERROR receiving data: ") UnicodeDecodeError));
          After CbDisconnect]).
Proof. split; reflexivity. Qed.

(** Claim C5, as amended.  Every complete line of the buffer is handled as
    its [strip]: the line with the whitespace taken off both ends, and none
    left there.  The [if]/[elif] chain then takes the first branch that
    matches, in the order of the specification: a line in which [TLM] occurs
    is parsed as telemetry; else one in which [dir] occurs goes to the
    direction branch (which raises [IndexError] or sets the direction and
    nothing else); else one in which [speed] occurs goes to the speed
    branch; else a non-empty line is posted as the log message made of
    ["Server: "] and the line, nothing else happening; and an empty line
    changes nothing and leaves no event. *)
Theorem classification_priority (raw rest : str) (k : nat) (w : world) :
  nl ∉ raw ->
  let line := strip raw in
  (exists pre post, raw = pre ++ line ++ post /\ blank pre /\ blank post) /\
  trimmed line /\
  drain (S k) (raw ++ nl :: rest) w = (handle_line line;; drain k rest) w
  /\
  (spec_kind line Telemetry ->
   handle_line line w =
     match dict_update ∅ (telemetry_items line) with
     | Some d =>
         (Val tt,
          with_trace (with_self w (apply_telemetry d (clock w) (self w)))
            [LogCommand (Text (py "Telemetry received"));
             After CbUpdateTelemetryDisplay])
     | None => (Exc ValueError, w)
     end)
  /\
  (spec_kind line PartialDirectionAck ->
   handle_line line w = (Exc IndexError, w) \/
   exists v,
     let c := set_telemetry (py "direction") v (self w) in
     handle_line line w =
       (Val tt, with_trace (with_self w c) [UpdateTelemetryDisplay (telemetry_data c)]))
  /\
  (spec_kind line PartialSpeedAck ->
   handle_line line w = (Exc IndexError, w) \/
   exists v,
     let c := set_telemetry (py "speed") v (self w) in
     handle_line line w =
       (Val tt, with_trace (with_self w c) [UpdateTelemetryDisplay (telemetry_data c)]))
  /\
  (spec_kind line Log ->
   handle_line line w =
     (Val tt, with_trace w [After (CbLog (Text (py "Server: " ++ line)))]))
  /\
  (spec_kind line Discarded -> handle_line line w = (Val tt, w)).
Proof.
  intros Hraw line. split; [|split; [|split]].
  { destruct (strip_with_split is_space raw) as (pre & post & Hsplit & Hpre & Hpost).
    fold (strip raw) in Hsplit. fold line in Hsplit.
    assert (Hblank : forall part, (forall c, c ∈ part -> c ∈ raw) ->
                                  Forall (fun c => is_space c = true) part -> blank part).
    { intros part Hin Hsp. unfold blank. rewrite Forall_forall in Hsp |- *.
      intros c Hc. split; [by apply Hsp|]. intros ->. by apply Hraw, Hin. }
    exists pre, post. split; [exact Hsplit|].
    split; apply Hblank; try assumption; intros c Hc; rewrite Hsplit, !elem_of_app; auto. }
  { apply strip_with_ends. }
  { by rewrite drain_first. }
  generalize line. clear. intros line. simpl. repeat split.
  - intros Htlm. apply contains_occurs in Htlm.
    assert (Hne : line <> [])
      by (eapply not_telemetry_nonempty; [exact Htlm | discriminate]).
    destruct (dict_update ∅ (telemetry_items line)) eqn:Hd.
    + by apply handle_telemetry_ok.
    + by apply handle_telemetry_bad.
  - intros [Htlm Hdir]. apply not_contains_occurs in Htlm.
    apply contains_occurs in Hdir. rewrite handle_direction by assumption.
    destruct (_ !! _) as [v|]; [right; by exists v | by left].
  - intros (Htlm & Hdir & Hsp). apply not_contains_occurs in Htlm, Hdir.
    apply contains_occurs in Hsp. rewrite handle_speed by assumption.
    destruct (_ !! _) as [v|]; [right; by exists v | by left].
  - intros (Htlm & Hdir & Hsp & Hne).
    apply not_contains_occurs in Htlm, Hdir, Hsp.
    rewrite handle_other by assumption. by rewrite bool_decide_eq_true_2.
  - intros ->. reflexivity.
Qed.

Lemma classification_priority_witness :
  drain 1 ((py " hello" ++ [13]) ++ [nl]) (session (py "12:00:00"))
    = (handle_line (py "hello");; drain 0 []) (session (py "12:00:00"))
  /\
  handle_line (py "hello") (session (py "12:00:00"))
    = (Val tt,
       with_trace (session (py "12:00:00"))
         [After (CbLog (Text (py "Server: " ++ py "hello")))]).
Proof.
  destruct (classification_priority (py " hello" ++ [13]) [] 0
              (session (py "12:00:00")))
    as (_ & _ & Hdrain & _ & _ & _ & Hlog & _); [not_in|].
  change (strip (py " hello" ++ [13])) with (py "hello") in Hdrain, Hlog.
  split; [exact Hdrain|]. apply Hlog.
  assert (Hno : forall sub, contains sub (py "hello") = false ->
                            ~ occurs sub (py "hello")).
  { intros sub H Ho. apply contains_occurs in Ho. congruence. }
  simpl. repeat split; try (by apply Hno). discriminate.
Defined.

(** Claim C5 as stated fails on the line [hello]: what is posted as the log
    message, and logged when the event loop runs it, is ["Server: hello"],
    not the line as it came. *)
Lemma log_line_is_prefixed :
  exists text w',
    handle_line (py "hello") (session (py "12:00:00"))
      = (Val tt, with_trace (session (py "12:00:00")) [After (CbLog (Text text))]) /\
    run_callback (CbLog (Text text)) (session (py "12:00:00")) = (Val tt, w') /\
    trace w' = [LogCommand (Text text)] /\
    text = py "Server: hello" /\
    text <> py "hello".
Proof.
  eexists _, _. repeat split; try reflexivity. vm_compute. discriminate.
Qed.

(** Claim C6.  From a connected client holding socket [s], two calls of
    [disconnect] in a row both return; the first one closes [s], exactly
    once, and leaves the client disconnected; the second one only logs
    "Already disconnected": no socket call, the object unchanged, the state
    still disconnected and the socket handle [None]. *)
Theorem disconnect_twice_closes_once (w : world) (s : nat) :
  is_connected (self w) = true ->
  server_socket (self w) = Some s ->
  exists w1 w2 ev,
    disconnect w = (Val tt, w1) /\ disconnect w1 = (Val tt, w2) /\
    trace w1 = trace w ++ ev /\
    List.filter is_close ev = [Sock s Close] /\
    is_connected (self w1) = false /\
    trace w2 = trace w1 ++ [LogCommand (Text (py "Already disconnected"))] /\
    script w2 = script w1 /\
    self w2 = self w1 /\
    is_connected (self w2) = false /\ server_socket (self w2) = None.
Proof.
  intros Hc Hs. open_world w. simpl in Hc, Hs. subst ic sk.
  unfold disconnect, cleanup_socket, encode. rewrite encode_quit.
  destruct sc as [|[e1|] [|[e2|] sc]]; run;
    eexists _, _, _; (split; [reflexivity|]); run; (split; [reflexivity|]);
    (split; [ rewrite <- ?app_assoc; reflexivity |]);
    repeat split.
Qed.

Lemma disconnect_twice_closes_once_witness :
  exists w1 w2 ev,
    disconnect (session (py "12:00:00")) = (Val tt, w1) /\
    disconnect w1 = (Val tt, w2) /\
    trace w1 = ev /\
    List.filter is_close ev = [Sock 0 Close] /\
    is_connected (self w1) = false /\
    trace w2 = trace w1 ++ [LogCommand (Text (py "Already disconnected"))] /\
    script w2 = script w1 /\
    self w2 = self w1 /\
    is_connected (self w2) = false /\ server_socket (self w2) = None.
Proof.
  apply (disconnect_twice_closes_once (session (py "12:00:00")) 0); reflexivity.
Defined.

(** Claim C7.  When one of the socket calls of [connect] raises (creation,
    either [settimeout], [connect] or the send of the AUTH line, whatever the
    exception), [connect] returns with the client still disconnected and
    the socket handle [None]; a socket created by the call has been closed,
    and [connect] was attempted at most once, on at most one socket. *)
Theorem connect_failure_releases_socket (w : world) (e : exn) :
  is_connected (self w) = false ->
  Some e ∈ take 5 (script w) ->
  exists w' ev,
    connect w = (Val tt, w') /\
    trace w' = trace w ++ ev /\
    is_connected (self w') = false /\
    server_socket (self w') = None /\
    (length (List.filter is_connect ev) <= 1)%nat /\
    (length (List.filter is_create ev) <= 1)%nat /\
    (forall s, Sock s Create ∈ ev -> Sock s Close ∈ ev).
Proof.
  intros Hc Hfail. open_world w. simpl in Hc, Hfail. subst ic.
  unfold connect, new_socket, created, cleanup_socket, start_receive_thread, encode.
  rewrite encode_auth.
  next_call sc; [no_failure Hfail | | ].
  { destruct e0, sk as [old|]; try next_call sc; connect_failed. }
  next_call sc; [no_failure Hfail | solve [failed_at sc e0] | ].
  next_call sc; [no_failure Hfail | solve [failed_at sc e0] | ].
  next_call sc; [no_failure Hfail | solve [failed_at sc e0] | ].
  next_call sc; [no_failure Hfail | solve [failed_at sc e0] | ].
  no_failure Hfail.
Qed.

Lemma connect_failure_releases_socket_witness :
  exists w' ev,
    connect (initial_world (py "12:00:00")
               [None; None; Some (SocketTimeout (py "timed out"))]) = (Val tt, w') /\
    trace w' = ev /\
    is_connected (self w') = false /\
    server_socket (self w') = None /\
    (length (List.filter is_connect ev) <= 1)%nat /\
    (length (List.filter is_create ev) <= 1)%nat /\
    (forall s, Sock s Create ∈ ev -> Sock s Close ∈ ev).
Proof.
  apply (connect_failure_releases_socket
           (initial_world (py "12:00:00")
              [None; None; Some (SocketTimeout (py "timed out"))])
           (SocketTimeout (py "timed out"))).
  - reflexivity.
  - cbn [initial_world script take]. in_events.
Defined.

(** Claim C8.  While [is_connected] is false, [send_command] returns
    [False] for every message; it only logs an error: the object (socket
    handle and connection flag included) is unchanged and no socket call is
    made. *)
Theorem send_command_not_connected (message : str) (w : world) :
  is_connected (self w) = false ->
  send_command message w =
    (Val false,
     with_trace w [LogCommand (Text (py "ERROR: Not connected to server"))])
  /\ self (with_trace w [LogCommand (Text (py "ERROR: Not connected to server"))])
     = self w
  /\ script (with_trace w [LogCommand (Text (py "ERROR: Not connected to server"))])
     = script w
  /\ List.filter is_sock [LogCommand (Text (py "ERROR: Not connected to server"))] = [].
Proof.
  intros H. unfold send_command.
  unfold mbind at 1, M_bind at 1, bind at 1, get_self. rewrite H.
  repeat split.
Qed.

Lemma send_command_not_connected_witness :
  send_command (py "SPEED UP") (initial_world (py "12:00:00") []) =
    (Val false,
     with_trace (initial_world (py "12:00:00") [])
       [LogCommand (Text (py "ERROR: Not connected to server"))]).
Proof.
  apply (send_command_not_connected (py "SPEED UP") (initial_world (py "12:00:00") [])).
  reflexivity.
Defined.

(** Claim C9, what the code does at the failing input.  Handling the
    partial ack [OK dir=N] in the receive loop calls
    [update_telemetry_display] itself, an event that touches the widgets
    from the thread running the loop, instead of posting it with [after] as
    the telemetry branch and the log branch do. *)
Theorem partial_ack_touches_widgets_from_receive_loop (w : world) :
  exists w' shown,
    handle_line (py "OK dir=N") w = (Val tt, w') /\
    trace w' = trace w ++ [UpdateTelemetryDisplay shown] /\
    touches_widgets (UpdateTelemetryDisplay shown) = true.
Proof.
  eexists _, _. split.
  - rewrite handle_direction by reflexivity.
    change (split eq_sign (strip_chars (py "OK ") (py "OK dir=N")) !! 1%nat)
      with (Some (py "N")).
    reflexivity.
  - split; reflexivity.
Qed.



(** ** Further properties of the code *)

Lemma encode_app (a b : str) :
  Utf8.encode (a ++ b) =
    match Utf8.encode a, Utf8.encode b with
    | Some x, Some y => Some (x ++ y)
    | _, _ => None
    end.
Proof.
  induction a as [|c a IH]; simpl.
  - by destruct (Utf8.encode b).
  - rewrite IH. destruct (Utf8.encode_char c), (Utf8.encode a), (Utf8.encode b);
      try reflexivity. by rewrite app_assoc.
Qed.

Lemma encode_framed (text : str) (data : bytes) :
  Utf8.encode (framed text) = Some data -> is_Some (Utf8.encode text).
Proof.
  unfold framed. destruct (ends_with_char nl text); [eauto|].
  rewrite encode_app. destruct (Utf8.encode text); [eauto | discriminate].
Qed.

Lemma framed_encodes (text : str) :
  is_Some (Utf8.encode text) -> is_Some (Utf8.encode (framed text)).
Proof.
  intros [x Hx]. unfold framed. destruct (ends_with_char nl text); [eauto|].
  rewrite encode_app, Hx. eauto.
Qed.

(** [print] of a message that encodes just prints. *)
Lemma print_sending (text : str) :
  is_Some (Utf8.encode text) ->
  print_ (py "Sending: " ++ text) = emit (Print (py "Sending: " ++ text)).
Proof.
  intros [x Hx]. unfold print_. rewrite encode_app, Hx.
  by destruct (Utf8.encode (py "Sending: ")) eqn:E.
Qed.


Lemma ends_with_char_app (c : N) (s : str) : ends_with_char c (s ++ [c]) = true.
Proof. unfold ends_with_char. rewrite rev_app_distr. simpl. apply N.eqb_refl. Qed.

Lemma framed_ends_with_newline (message : str) : ends_with_char nl (framed message) = true.
Proof.
  unfold framed. destruct (ends_with_char nl message) eqn:E; [exact E|].
  apply ends_with_char_app.
Qed.

(** On a live connection whose next socket call succeeds, [send_command]
    prints the message, sends once the octets of the message with a newline
    appended when it does not already end in one, returns [True] and leaves
    the object untouched; what goes on the wire always ends in a newline, and
    a message that ends in one is sent as it is. *)
Theorem send_command_sends_framed (message : str) (data : bytes) (w : world) (s : nat) :
  is_connected (self w) = true ->
  server_socket (self w) = Some s ->
  Utf8.encode (framed message) = Some data ->
  hd None (script w) = None ->
  send_command message w =
    (Val true,
     World (self w) (tl (script w)) (sockets w) (clock w)
           (trace w ++ [Print (py "Sending: " ++ message); Sock s (Send data)]))
  /\ ends_with_char nl (framed message) = true
  /\ (ends_with_char nl message = true -> framed message = message).
Proof.
  intros Hc Hs He Hscript. split; [|split].
  - open_world w. simpl in Hc, Hs, Hscript. subst ic sk.
    unfold send_command, encode. cbv zeta. fold (framed message). rewrite He.
    rewrite print_sending by (eapply encode_framed; exact He).
    destruct sc as [|[e|] sc]; [| discriminate Hscript |];
      run; rewrite <- app_assoc; reflexivity.
  - apply framed_ends_with_newline.
  - unfold framed. by intros ->.
Qed.

Ltac consistent_cases H ic sk :=
  unfold consistent in H; cbn [self is_connected server_socket] in H;
  destruct ic, sk as [?s|];
  [ | exfalso; destruct H as [H _]; destruct (H eq_refl); discriminate
    | exfalso; destruct H as [_ H]; discriminate (H (ex_intro _ _ eq_refl)) | ].










Ltac all_ok H :=
  exfalso; cbn [take] in H;
  repeat match goal with
         | H' : Forall _ (_ :: _) |- _ => apply Forall_cons in H' as [? H']
         end;
  discriminate.

Ltac connected := run; rewrite <- ?app_assoc; eexists; split; reflexivity.

(** [connect] on a connected client only logs. *)
Lemma connect_when_connected (w : world) :
  is_connected (self w) = true ->
  connect w = (Val tt, with_trace w [LogCommand (Text (py "Already connected to server"))]).
Proof.
  intros Hc. unfold connect. unfold mbind at 1, M_bind at 1, bind at 1, get_self.
  rewrite Hc. reflexivity.
Qed.

(** When none of its five socket calls raises, [connect] on a disconnected
    client creates one socket, sets the 5 second timeout, connects to
    [host]:[port], clears the timeout and sends the AUTH line, in this order;
    it ends connected, with the receive flag set and the new socket stored.
    A second [connect] then only logs "Already connected to server". *)
Theorem connect_opens_session (w : world) :
  is_connected (self w) = false ->
  Forall (fun o => o = None) (take 5 (script w)) ->
  exists ev w',
    connect w = (Val tt, w') /\
    w' = World (set_should_receive true
                  (set_is_connected true
                     (set_server_socket (Some (sockets w)) (self w))))
               (drop 5 (script w)) (S (sockets w)) (clock w) (trace w ++ ev) /\
    socket_calls ev =
      [Sock (sockets w) Create;
       Sock (sockets w) (SetTimeout (Some 5));
       Sock (sockets w) (Connect (host (self w)) (port (self w)));
       Sock (sockets w) (SetTimeout None);
       Sock (sockets w) (Send (octets "AUTH admin admin123" ++ [x0a]))] /\
    connect w' =
      (Val tt, with_trace w' [LogCommand (Text (py "Already connected to server"))]).
Proof.
  intros Hc Hok.
  enough (exists ev,
    connect w =
      (Val tt,
       World (set_should_receive true
                (set_is_connected true
                   (set_server_socket (Some (sockets w)) (self w))))
             (drop 5 (script w)) (S (sockets w)) (clock w) (trace w ++ ev)) /\
    socket_calls ev =
      [Sock (sockets w) Create;
       Sock (sockets w) (SetTimeout (Some 5));
       Sock (sockets w) (Connect (host (self w)) (port (self w)));
       Sock (sockets w) (SetTimeout None);
       Sock (sockets w) (Send (octets "AUTH admin admin123" ++ [x0a]))])
    as (ev & Hrun & Hcalls).
  { eexists ev, _. split; [exact Hrun|]. split; [reflexivity|]. split; [exact Hcalls|].
    by apply connect_when_connected. }
  open_world w. simpl in Hc. subst ic.
  unfold connect, new_socket, created, start_receive_thread, encode.
  rewrite encode_auth. cbn [script] in Hok.
  next_call sc; [connected | all_ok Hok | ].
  next_call sc; [connected | all_ok Hok | ].
  next_call sc; [connected | all_ok Hok | ].
  next_call sc; [connected | all_ok Hok | ].
  next_call sc; [connected | all_ok Hok | ].
  connected.
Qed.

Lemma connect_opens_session_witness :
  exists ev w',
    connect (initial_world (py "12:00:00") []) = (Val tt, w') /\
    w' = World (Client (Some 0%nat) (py "127.0.0.1") 9000 true true
                       (initial_telemetry (py "12:00:00")))
               [] 1 (py "12:00:00") ev /\
    socket_calls ev =
      [Sock 0 Create; Sock 0 (SetTimeout (Some 5));
       Sock 0 (Connect (py "127.0.0.1") 9000); Sock 0 (SetTimeout None);
       Sock 0 (Send (octets "AUTH admin admin123" ++ [x0a]))] /\
    connect w' =
      (Val tt, with_trace w' [LogCommand (Text (py "Already connected to server"))]).
Proof.
  apply (connect_opens_session (initial_world (py "12:00:00") [])).
  - reflexivity.
  - constructor.
Defined.

(** [disconnect] on a connected client holding socket [s] clears the
    receive flag, sends the QUIT line, then closes [s], and these are its only
    socket calls, also when the send or the close raises; it ends
    disconnected with the handle [None], and its last effect is the log
    line "Disconnected from server". *)
Theorem disconnect_says_quit_then_closes (w : world) (s : nat) :
  is_connected (self w) = true ->
  server_socket (self w) = Some s ->
  exists w' ev,
    disconnect w = (Val tt, w') /\
    trace w' = trace w ++ ev /\
    socket_calls ev = [Sock s (Send (octets "QUIT" ++ [x0a])); Sock s Close] /\
    self w' =
      set_is_connected false
        (set_server_socket None (set_should_receive false (self w))) /\
    last ev = Some (LogCommand (Text (py "Disconnected from server"))).
Proof.
  intros Hc Hs. open_world w. simpl in Hc, Hs. subst ic sk.
  unfold disconnect, cleanup_socket, encode. rewrite encode_quit.
  destruct sc as [|[e1|] [|[e2|] sc]]; run;
    eexists _, _; (split; [reflexivity|]);
    (split; [cbn [trace]; rewrite <- ?app_assoc; reflexivity|]);
    repeat split.
Qed.

Lemma disconnect_says_quit_then_closes_witness :
  exists w' ev,
    disconnect (session (py "12:00:00")) = (Val tt, w') /\
    trace w' = ev /\
    socket_calls ev = [Sock 0 (Send (octets "QUIT" ++ [x0a])); Sock 0 Close] /\
    self w' =
      set_is_connected false
        (set_server_socket None (set_should_receive false (self (session (py "12:00:00"))))) /\
    last ev = Some (LogCommand (Text (py "Disconnected from server"))).
Proof.
  apply (disconnect_says_quit_then_closes (session (py "12:00:00")) 0); reflexivity.
Defined.

(** [on_closing] always reaches [destroy], after its 200 ms pause, with the
    client disconnected and the handle [None]: a connected client says QUIT
    and closes its socket first, a disconnected one makes no socket call. *)
Theorem on_closing_tears_down (w : world) :
  consistent (self w) ->
  exists w' ev,
    on_closing w = (Val Destroyed, w') /\
    trace w' = trace w ++ ev /\
    is_connected (self w') = false /\
    server_socket (self w') = None /\
    last ev = Some (Sleep 200) /\
    socket_calls ev =
      match server_socket (self w) with
      | Some s => [Sock s (Send (octets "QUIT" ++ [x0a])); Sock s Close]
      | None => []
      end.
Proof.
  intros H. open_world w. consistent_cases H ic sk.
  - unfold on_closing, disconnect, cleanup_socket, encode. rewrite encode_quit.
    destruct sc as [|[e1|] [|[e2|] sc]]; run;
      eexists _, _; (split; [reflexivity|]);
      (split; [cbn [trace]; rewrite <- ?app_assoc; reflexivity|]);
      repeat split.
  - unfold on_closing. run. eexists _, _. split; [reflexivity|].
    split; [reflexivity|]. repeat split.
Qed.

Lemma on_closing_tears_down_witness :
  exists w' ev,
    on_closing (session (py "12:00:00")) = (Val Destroyed, w') /\
    trace w' = ev /\
    is_connected (self w') = false /\
    server_socket (self w') = None /\
    last ev = Some (Sleep 200) /\
    socket_calls ev = [Sock 0 (Send (octets "QUIT" ++ [x0a])); Sock 0 Close].
Proof.
  apply (on_closing_tears_down (session (py "12:00:00"))).
  unfold consistent. simpl. split; eauto.
Defined.

Lemma send_command_sent (text : str) (data : bytes) (w : world) (s : nat) :
  is_connected (self w) = true ->
  server_socket (self w) = Some s ->
  Utf8.encode (framed text) = Some data ->
  hd None (script w) = None ->
  send_command text w =
    (Val true,
     World (self w) (tl (script w)) (sockets w) (clock w)
           (trace w ++ [Print (py "Sending: " ++ text); Sock s (Send data)])).
Proof.
  intros Hc Hs He Hscript.
  open_world w. simpl in Hc, Hs, Hscript. subst ic sk.
  unfold send_command, encode. cbv zeta. fold (framed text). rewrite He.
  rewrite print_sending by (eapply encode_framed; exact He).
  destruct sc as [|[e|] sc]; [| discriminate Hscript |];
    run; rewrite <- app_assoc; reflexivity.
Qed.

Lemma command_sent (text : str) (m : message) (data : bytes) (w : world) (s : nat) :
  is_connected (self w) = true ->
  server_socket (self w) = Some s ->
  Utf8.encode (framed text) = Some data ->
  hd None (script w) = None ->
  (send_command text ≫= fun sent : bool =>
   if sent then log_command m else mret tt) w =
    (Val tt,
     World (self w) (tl (script w)) (sockets w) (clock w)
           (trace w ++ [Print (py "Sending: " ++ text); Sock s (Send data);
                        LogCommand m])).
Proof.
  intros Hc Hs He Hscript. unfold mbind, M_bind, bind.
  rewrite (send_command_sent text data w s Hc Hs He Hscript).
  unfold log_command, emit. cbn [self script sockets clock trace].
  rewrite <- app_assoc. reflexivity.
Qed.

(** On a live connection whose next socket call succeeds, [speed_up],
    [slow_down] and [change_direction] each send exactly one line, "SPEED UP",
    "SLOW DOWN" or "TURN <direction>" followed by a newline, then log
    "Command sent: ..."; the object is untouched. *)
Theorem commands_put_one_line_on_the_wire (w : world) (s : nat) :
  is_connected (self w) = true ->
  server_socket (self w) = Some s ->
  hd None (script w) = None ->
  speed_up w =
    (Val tt,
     World (self w) (tl (script w)) (sockets w) (clock w)
           (trace w ++ [Print (py "Sending: SPEED UP");
                        Sock s (Send (octets "SPEED UP" ++ [x0a]));
                        LogCommand (Text (py "Command sent: SPEED UP"))])) /\
  slow_down w =
    (Val tt,
     World (self w) (tl (script w)) (sockets w) (clock w)
           (trace w ++ [Print (py "Sending: SLOW DOWN");
                        Sock s (Send (octets "SLOW DOWN" ++ [x0a]));
                        LogCommand (Text (py "Command sent: SLOW DOWN"))])) /\
  forall d data,
    Utf8.encode (framed (py "TURN " ++ d)) = Some data ->
    change_direction d w =
      (Val tt,
       World (self w) (tl (script w)) (sockets w) (clock w)
             (trace w ++ [Print (py "Sending: " ++ (py "TURN " ++ d));
                          Sock s (Send data);
                          LogCommand (Text (py "Command sent: TURN " ++ d))])).
Proof.
  intros Hc Hs Hscript. split; [|split].
  - by apply command_sent.
  - by apply command_sent.
  - intros d data He. by apply command_sent.
Qed.

Lemma commands_put_one_line_on_the_wire_witness :
  change_direction (py "LEFT") (session (py "12:00:00")) =
    (Val tt,
     World (self (session (py "12:00:00"))) [] 1 (py "12:00:00")
           [Print (py "Sending: " ++ (py "TURN " ++ py "LEFT"));
            Sock 0 (Send (octets "TURN LEFT" ++ [x0a]));
            LogCommand (Text (py "Command sent: TURN " ++ py "LEFT"))]).
Proof.
  apply (proj2 (proj2 (commands_put_one_line_on_the_wire (session (py "12:00:00")) 0
                         eq_refl eq_refl eq_refl))).
  reflexivity.
Defined.

(** Without a connection [speed_up], [slow_down] and [change_direction] only
    log "ERROR: Not connected to server": no socket call is made and no
    "Command sent" line is logged. *)
Theorem commands_need_a_connection (w : world) :
  is_connected (self w) = false ->
  speed_up w = (Val tt, with_trace w [LogCommand (Text (py "ERROR: Not connected to server"))]) /\
  slow_down w = (Val tt, with_trace w [LogCommand (Text (py "ERROR: Not connected to server"))]) /\
  forall d,
    change_direction d w =
      (Val tt, with_trace w [LogCommand (Text (py "ERROR: Not connected to server"))]).
Proof.
  intros Hc.
  assert (Hsend : forall text,
    send_command text w =
      (Val false, with_trace w [LogCommand (Text (py "ERROR: Not connected to server"))])).
  { intros text. unfold send_command.
    unfold mbind at 1, M_bind at 1, bind at 1, get_self. rewrite Hc. reflexivity. }
  unfold speed_up, slow_down, change_direction, mbind, M_bind, bind.
  repeat split; intros; rewrite Hsend; reflexivity.
Qed.

Lemma commands_need_a_connection_witness :
  speed_up (initial_world (py "12:00:00") []) =
    (Val tt,
     with_trace (initial_world (py "12:00:00") [])
       [LogCommand (Text (py "ERROR: Not connected to server"))]).
Proof.
  apply (proj1 (commands_need_a_connection (initial_world (py "12:00:00") []) eq_refl)).
Defined.
(** When the send of a command raises, [send_command] returns [False] after
    logging the error and disconnecting: the command was sent once and is
    not retried, QUIT is attempted, the socket is closed, and the client ends
    disconnected with the handle [None] and the receive flag cleared. *)
Theorem send_failure_tears_down (text : str) (data : bytes) (w : world) (s : nat)
        (e : exn) (rest : list (option exn)) :
  is_connected (self w) = true ->
  server_socket (self w) = Some s ->
  Utf8.encode (framed text) = Some data ->
  script w = Some e :: rest ->
  exists w' ev,
    send_command text w = (Val false, w') /\
    trace w' = trace w ++ ev /\
    socket_calls ev =
      [Sock s (Send data); Sock s (Send (octets "QUIT" ++ [x0a])); Sock s Close] /\
    LogCommand (WithExn (py "ERROR sending command: ") e) ∈ ev /\
    self w' =
      set_is_connected false
        (set_server_socket None (set_should_receive false (self w))).
Proof.
  intros Hc Hs He Hscript. open_world w. simpl in Hc, Hs, Hscript. subst ic sk sc.
  unfold send_command, disconnect, cleanup_socket, encode. rewrite encode_quit.
  cbv zeta. fold (framed text). rewrite He.
  rewrite print_sending by (eapply encode_framed; exact He).
  destruct rest as [|[e1|] [|[e2|] rest]]; run;
    eexists _, _; (split; [reflexivity|]);
    (split; [cbn [trace]; rewrite <- ?app_assoc; reflexivity|]);
    (split; [reflexivity|]); (split; [in_events | reflexivity]).
Qed.

Lemma send_failure_tears_down_witness :
  exists w' ev,
    send_command (py "SPEED UP")
      (World (self (session (py "12:00:00"))) [Some (OSError (py "broken pipe"))]
             1 (py "12:00:00") []) = (Val false, w') /\
    trace w' = ev /\
    socket_calls ev =
      [Sock 0 (Send (octets "SPEED UP" ++ [x0a]));
       Sock 0 (Send (octets "QUIT" ++ [x0a])); Sock 0 Close] /\
    LogCommand (WithExn (py "ERROR sending command: ") (OSError (py "broken pipe"))) ∈ ev /\
    self w' =
      set_is_connected false
        (set_server_socket None
           (set_should_receive false (self (session (py "12:00:00"))))).
Proof.
  apply (send_failure_tears_down (py "SPEED UP") (octets "SPEED UP" ++ [x0a])
           (World (self (session (py "12:00:00"))) [Some (OSError (py "broken pipe"))]
                  1 (py "12:00:00") []) 0 (OSError (py "broken pipe")) []);
    reflexivity.
Defined.

(** A zero-length read ends the receive loop: whatever the buffer holds and
    whatever would come next, the loop posts the log line "Server closed
    connection" and [disconnect], in this order, changes nothing itself, and
    is left; once the event loop has run the two callables the client is
    disconnected. *)
Theorem peer_close_ends_loop (w : world) (s : nat) (buffer : str)
        (inbound : list recv_result) :
  server_socket (self w) = Some s ->
  is_connected (self w) = true -> should_receive (self w) = true ->
  exists w1 w2,
    receive_loop_from buffer (Data [] :: inbound) w = (Val Exited, w1) /\
    w1 = with_trace w
           [Sock s (Recv 1024);
            After (CbLog (Text (py "Server closed connection")));
            After CbDisconnect] /\
    (run_callback (CbLog (Text (py "Server closed connection")));;
     run_callback CbDisconnect) w1 = (Val tt, w2) /\
    is_connected (self w2) = false.
Proof.
  intros Hs Hc Hr.
  destruct (disconnect_returns
              (with_trace
                 (with_trace w
                    [Sock s (Recv 1024);
                     After (CbLog (Text (py "Server closed connection")));
                     After CbDisconnect])
                 [LogCommand (Text (py "Server closed connection"))]))
    as (w2 & Hrun & Hoff).
  eexists _, w2. split; [|split; [reflexivity|split; [|exact Hoff]]].
  - open_world w. simpl in Hs, Hc, Hr. subst sk ic sr.
    cbn [receive_loop_from]. unfold receive_step, recv. run.
    unfold decode. cbn [Utf8.decode]. run. rewrite <- !app_assoc. reflexivity.
  - unfold run_callback at 1.
    unfold mbind at 1, M_bind at 1, bind at 1, log_command, emit.
    exact Hrun.
Qed.

Lemma peer_close_ends_loop_witness :
  exists w1 w2,
    receive_loop_from (py "TLM spe") [Data []; Data (octets "ed=1" ++ [x0a])]
                      (session (py "12:00:00")) = (Val Exited, w1) /\
    w1 = with_trace (session (py "12:00:00"))
           [Sock 0 (Recv 1024);
            After (CbLog (Text (py "Server closed connection")));
            After CbDisconnect] /\
    (run_callback (CbLog (Text (py "Server closed connection")));;
     run_callback CbDisconnect) w1 = (Val tt, w2) /\
    is_connected (self w2) = false.
Proof.
  apply (peer_close_ends_loop (session (py "12:00:00")) 0); reflexivity.
Defined.

(** A turn of the receive loop whose [recv] raises ends the loop; the
    handler posts the error log and [disconnect] only while [should_receive]
    is still set, and is silent once [disconnect] has cleared the flag. *)
Theorem recv_failure_ends_turn (w : world) (s : nat) (buffer : str) (e : exn) :
  server_socket (self w) = Some s ->
  receive_step buffer (Fails e) w =
    (Val None,
     with_trace w
       (Sock s (Recv 1024)
        :: if should_receive (self w)
           then [After (CbLog (WithExn (py "ERROR receiving data: ") e));
                 After CbDisconnect]
           else [])).
Proof.
  intros Hs. open_world w. simpl in Hs. subst sk.
  unfold receive_step, recv. run.
  destruct sr; rewrite <- ?app_assoc; reflexivity.
Qed.

Lemma recv_failure_ends_turn_witness :
  receive_step [] (Fails (OSError (py "reset")))
    (with_self (session (py "12:00:00"))
       (set_should_receive false (self (session (py "12:00:00"))))) =
    (Val None,
     with_trace
       (with_self (session (py "12:00:00"))
          (set_should_receive false (self (session (py "12:00:00")))))
       [Sock 0 (Recv 1024)]).
Proof.
  apply (recv_failure_ends_turn
           (with_self (session (py "12:00:00"))
              (set_should_receive false (self (session (py "12:00:00")))))
           0 [] (OSError (py "reset"))).
  reflexivity.
Defined.

(** After [disconnect] has returned, from any state, the receive loop
    leaves at its next test: it reads nothing and has no effect. *)
Theorem loop_stops_after_disconnect (w : world) (buffer : str)
        (inbound : list recv_result) :
  exists w1,
    disconnect w = (Val tt, w1) /\
    receive_loop_from buffer inbound w1 = (Val Exited, w1).
Proof.
  destruct (disconnect_returns w) as (w1 & Hrun & Hoff).
  exists w1. split; [exact Hrun|].
  destruct inbound; cbn [receive_loop_from];
    unfold mbind at 1, M_bind at 1, bind at 1, get_self;
    rewrite Hoff, andb_false_r; reflexivity.
Qed.
Lemma receive_only_refl (w : world) : receive_only w w.
Proof.
  repeat split; try done. exists []. split; [by rewrite app_nil_r | constructor].
Qed.

Lemma receive_only_trans (w1 w2 w3 : world) :
  receive_only w1 w2 -> receive_only w2 w3 -> receive_only w1 w3.
Proof.
  intros (A1 & A2 & A3 & A4 & A5 & A6 & A7 & A8 & A9 & ev1 & T1 & F1)
         (B1 & B2 & B3 & B4 & B5 & B6 & B7 & B8 & B9 & ev2 & T2 & F2).
  repeat split; try congruence.
  - intros k Hk. auto.
  - exists (ev1 ++ ev2). split; [by rewrite T2, T1, app_assoc | by apply Forall_app].
Qed.

Lemma receive_only_emit (w : world) (ev : list event) :
  Forall (fun e => is_sock e = true -> is_recv e = true) ev ->
  receive_only w (with_trace w ev).
Proof. intros H. repeat split; try done. by exists ev. Qed.

Lemma receive_only_telemetry (w : world) (c : client) (ev : list event) :
  server_socket c = server_socket (self w) ->
  is_connected c = is_connected (self w) ->
  should_receive c = should_receive (self w) ->
  host c = host (self w) -> port c = port (self w) ->
  (forall k, is_Some (telemetry_data (self w) !! k) -> is_Some (telemetry_data c !! k)) ->
  Forall (fun e => is_sock e = true -> is_recv e = true) ev ->
  receive_only w (with_trace (with_self w c) ev).
Proof. intros. repeat split; try done. by exists ev. Qed.

Ltac harmless := repeat constructor; discriminate.

Lemma handle_line_receive_only (line : str) (w w' : world) (o : outcome unit) :
  handle_line line w = (o, w') -> receive_only w w'.
Proof.
  intros H.
  destruct (contains (py "TLM") line) eqn:Htlm.
  { assert (Hne : line <> [])
      by (eapply not_telemetry_nonempty; [exact Htlm | discriminate]).
    destruct (dict_update ∅ (telemetry_items line)) eqn:Hd.
    - rewrite (handle_telemetry_ok _ _ _ Hne Htlm Hd) in H. injection H as _ <-.
      apply receive_only_telemetry; try reflexivity; [|harmless].
      intros k Hk. unfold apply_telemetry, set_telemetry. cbn [telemetry_data].
      rewrite !lookup_insert_is_Some'. auto 10.
    - rewrite (handle_telemetry_bad _ _ Hne Htlm Hd) in H. injection H as _ <-.
      apply receive_only_refl. }
  destruct (contains (py "dir") line) eqn:Hdir.
  { rewrite handle_direction in H by assumption.
    destruct (_ !! _); injection H as _ <-; [|apply receive_only_refl].
    apply receive_only_telemetry; try reflexivity; [|harmless].
    intros k Hk. cbn [set_telemetry telemetry_data].
    rewrite lookup_insert_is_Some'. auto. }
  destruct (contains (py "speed") line) eqn:Hsp.
  { rewrite handle_speed in H by assumption.
    destruct (_ !! _); injection H as _ <-; [|apply receive_only_refl].
    apply receive_only_telemetry; try reflexivity; [|harmless].
    intros k Hk. cbn [set_telemetry telemetry_data].
    rewrite lookup_insert_is_Some'. auto. }
  rewrite handle_other in H by assumption.
  destruct (bool_decide _); injection H as _ <-;
    [apply receive_only_emit; harmless | apply receive_only_refl].
Qed.

Lemma drain_receive_only (fuel : nat) :
  forall buffer w w' (o : outcome str),
    drain fuel buffer w = (o, w') -> receive_only w w'.
Proof.
  induction fuel as [|k IH]; intros buffer w w' o H; simpl in H;
    destruct (split_once nl buffer) as [[a b]|].
  - injection H as _ <-. apply receive_only_refl.
  - injection H as _ <-. apply receive_only_refl.
  - unfold mbind, M_bind, bind in H.
    destruct (handle_line (strip a) w) as [[[]|e|] w1] eqn:E;
      apply handle_line_receive_only in E.
    + eapply receive_only_trans; [exact E|]. eapply IH. exact H.
    + by injection H as _ <-.
    + by injection H as _ <-.
  - injection H as _ <-. apply receive_only_refl.
Qed.
Lemma receiving_ret {A} (a : A) : receiving (mret a).
Proof. intros w o w' H. injection H as _ <-. apply receive_only_refl. Qed.

Lemma receiving_raise {A} (e : exn) : receiving (@raise A e).
Proof. intros w o w' H. injection H as _ <-. apply receive_only_refl. Qed.

Lemma receiving_bind {A B} (m : M A) (k : A -> M B) :
  receiving m -> (forall a, receiving (k a)) -> receiving (m ≫= k).
Proof.
  intros Hm Hk w o w' H. unfold mbind, M_bind, bind in H.
  destruct (m w) as [[a|e|] w1] eqn:E; apply Hm in E.
  - eapply receive_only_trans; [exact E|]. eapply Hk. exact H.
  - by injection H as _ <-.
  - by injection H as _ <-.
Qed.

Lemma receiving_try {A} (m : M A) (h : exn -> M A) :
  receiving m -> (forall e, receiving (h e)) -> receiving (try_ m h).
Proof.
  intros Hm Hh w o w' H. unfold try_ in H.
  destruct (m w) as [[a|e|] w1] eqn:E; apply Hm in E.
  - by injection H as _ <-.
  - eapply receive_only_trans; [exact E|]. eapply Hh. exact H.
  - by injection H as _ <-.
Qed.

Lemma receiving_get_self : receiving get_self.
Proof. intros w o w' H. injection H as _ <-. apply receive_only_refl. Qed.

Lemma receiving_emit (e : event) :
  (is_sock e = true -> is_recv e = true) -> receiving (emit e).
Proof.
  intros He w o w' H. injection H as _ <-.
  apply (receive_only_emit w [e]). by constructor.
Qed.

Lemma receiving_handle_line (line : str) : receiving (handle_line line).
Proof. intros w o w' H. by eapply handle_line_receive_only. Qed.

Lemma receiving_drain (fuel : nat) (buffer : str) : receiving (drain fuel buffer).
Proof. intros w o w' H. by eapply drain_receive_only. Qed.

Lemma receiving_recv (r : recv_result) : receiving (recv r).
Proof.
  unfold recv. apply receiving_bind; [apply receiving_get_self|].
  intros c. destruct (server_socket c); [|apply receiving_raise].
  apply receiving_bind; [by apply receiving_emit|].
  intros _. destruct r; [apply receiving_ret | apply receiving_raise].
Qed.

Lemma receiving_decode (raw : bytes) : receiving (decode raw).
Proof.
  unfold decode. destruct (Utf8.decode raw); [apply receiving_ret | apply receiving_raise].
Qed.

Lemma receiving_after (cb : callback) : receiving (after cb).
Proof. apply receiving_emit. discriminate. Qed.

Lemma receiving_receive_step (buffer : str) (r : recv_result) :
  receiving (receive_step buffer r).
Proof.
  unfold receive_step. apply receiving_try.
  - apply receiving_bind; [apply receiving_recv|]. intros raw.
    apply receiving_bind; [apply receiving_decode|]. intros [|c data].
    + repeat (apply receiving_bind; [apply receiving_after | intros _]).
      apply receiving_ret.
    + cbv zeta. apply receiving_bind; [apply receiving_drain|].
      intros b. apply receiving_ret.
  - intros e. apply receiving_bind; [apply receiving_get_self|]. intros c.
    apply receiving_bind; [|intros _; apply receiving_ret].
    destruct (should_receive c); [|apply receiving_ret].
    apply receiving_bind; [apply receiving_after | intros _; apply receiving_after].
Qed.

Lemma receive_loop_receive_only (inbound : list recv_result) :
  forall buffer w w' (o : outcome loop_end),
    receive_loop_from buffer inbound w = (o, w') -> receive_only w w'.
Proof.
  induction inbound as [|r inbound IH]; intros buffer w w' o H;
    cbn [receive_loop_from] in H;
    unfold mbind at 1, M_bind at 1, bind at 1, get_self in H;
    destruct (should_receive (self w) && is_connected (self w));
    try (injection H as _ <-; apply receive_only_refl).
  unfold mbind at 1, M_bind at 1, bind at 1 in H.
  destruct (receive_step buffer r w) as [[[b|]|e|] w1] eqn:E;
    apply receiving_receive_step in E;
    try (injection H as _ <-; exact E).
  eapply receive_only_trans; [exact E|]. eapply IH. exact H.
Qed.

(** However a run of the receive loop ends, the loop itself has not changed
    the socket handle, [is_connected] or [should_receive], and the only
    socket calls it made are [recv]s: it never sends and never closes (it
    only posts [disconnect] to the event loop). *)
Theorem receive_loop_leaves_connection_alone
        (inbound : list recv_result) (buffer : str) (w w' : world)
        (o : outcome loop_end) :
  receive_loop_from buffer inbound w = (o, w') ->
  server_socket (self w') = server_socket (self w) /\
  is_connected (self w') = is_connected (self w) /\
  should_receive (self w') = should_receive (self w) /\
  script w' = script w /\
  exists ev, trace w' = trace w ++ ev /\
             Forall (fun e => is_sock e = true -> is_recv e = true) ev.
Proof.
  intros H. apply receive_loop_receive_only in H.
  destruct H as (A1 & A2 & A3 & _ & _ & A6 & _ & _ & _ & Hev). auto.
Qed.

(** A snapshot that holds the five keys direction, speed, battery,
    temperature and time (as the one [__init__] builds does) still holds
    them after any run of the receive loop, however the run ends. *)
Theorem receive_loop_keeps_snapshot_populated
        (inbound : list recv_result) (buffer : str) (w w' : world)
        (o : outcome loop_end) :
  fully_populated (self w) ->
  receive_loop_from buffer inbound w = (o, w') ->
  fully_populated (self w').
Proof.
  intros Hfull H. apply receive_loop_receive_only in H.
  destruct H as (_ & _ & _ & _ & _ & _ & _ & _ & Hkeys & _).
  intros k Hk. apply Hkeys, Hfull, Hk.
Qed.

Lemma receive_loop_leaves_connection_alone_witness :
  let run := receive_loop_from [] [Data (octets "OK dir=W" ++ [x0a]); Data []]
                               (session (py "12:00:00")) in
  server_socket (self run.2) = Some 0%nat /\
  is_connected (self run.2) = true /\
  should_receive (self run.2) = true /\
  script run.2 = [] /\
  exists ev, trace run.2 = ev /\
             Forall (fun e => is_sock e = true -> is_recv e = true) ev.
Proof.
  intros run.
  apply (receive_loop_leaves_connection_alone
           [Data (octets "OK dir=W" ++ [x0a]); Data []] []
           (session (py "12:00:00")) run.2 run.1).
  apply surjective_pairing.
Defined.

Lemma initial_fully_populated (t : str) : fully_populated (initial_client t).
Proof.
  intros k Hk. unfold initial_client, initial_telemetry. cbn [telemetry_data].
  unfold snapshot_keys in Hk.
  repeat (apply elem_of_cons in Hk as [->|Hk];
          [ rewrite !lookup_insert_is_Some'; auto 10 | ]).
  inversion Hk.
Qed.

Lemma receive_loop_keeps_snapshot_populated_witness :
  let run := receive_loop_from [] [Data (octets "TLM battery=50" ++ [x0a])]
                               (session (py "12:00:00")) in
  fully_populated (self run.2).
Proof.
  intros run.
  apply (receive_loop_keeps_snapshot_populated
           [Data (octets "TLM battery=50" ++ [x0a])] []
           (session (py "12:00:00")) run.2 run.1).
  - apply (initial_fully_populated (py "12:00:00")).
  - apply surjective_pairing.
Defined.
Lemma dict_update_last (pre post : list (list str)) (k v : str) :
  forall d d',
    dict_update d (pre ++ [k; v] :: post) = Some d' ->
    (forall item, item ∈ post -> head item <> Some k) ->
    d' !! k = Some v.
Proof.
  induction pre as [|it pre IH]; intros d d' H Hpost; simpl in H.
  - rewrite (dict_update_lookup post k _ _ H Hpost). apply lookup_insert_eq.
  - destruct it as [|k0 [|v0 [|x r]]]; try discriminate. eapply IH; eassumption.
Qed.

(** When a telemetry line gives a key several times, the last pair with
    that key decides the field. *)
Theorem last_pair_wins (line : str) (w : world) (d : gmap (list N) (list N))
        (pre post : list (list str)) (k v : str) :
  line <> [] -> contains (py "TLM") line = true ->
  dict_update ∅ (telemetry_items line) = Some d ->
  telemetry_items line = pre ++ [k; v] :: post ->
  (forall item, item ∈ post -> head item <> Some k) ->
  exists w',
    handle_line line w = (Val tt, w') /\
    let td := telemetry_data (self w') in
    (k = py "speed" -> td !! py "speed" = Some v) /\
    (k = py "battery" -> td !! py "battery" = Some v) /\
    (k = py "ts" -> td !! py "time" = Some v) /\
    (k = py "temp" -> td !! py "temperature" = Some v) /\
    (k = py "dir" -> td !! py "direction" = Some v).
Proof.
  intros Hne Htlm Hd Hitems Hpost.
  assert (Hk : d !! k = Some v).
  { rewrite Hitems in Hd. eapply dict_update_last; eassumption. }
  eexists. split; [by apply handle_telemetry_ok|].
  destruct (apply_telemetry_fields d (clock w) (self w)) as (Hs & Hb & Ht & Hte & Hdi).
  cbn [with_trace with_self self]. cbv zeta.
  repeat split; intros ->; rewrite Hk in *; assumption.
Qed.

Lemma last_pair_wins_witness :
  exists w',
    handle_line (py "TLM speed=1;dir=E;speed=2") (session (py "12:00:00")) = (Val tt, w') /\
    let td := telemetry_data (self w') in
    (py "speed" = py "speed" -> td !! py "speed" = Some (py "2")) /\
    (py "speed" = py "battery" -> td !! py "battery" = Some (py "2")) /\
    (py "speed" = py "ts" -> td !! py "time" = Some (py "2")) /\
    (py "speed" = py "temp" -> td !! py "temperature" = Some (py "2")) /\
    (py "speed" = py "dir" -> td !! py "direction" = Some (py "2")).
Proof.
  apply (last_pair_wins (py "TLM speed=1;dir=E;speed=2") (session (py "12:00:00"))
           (list_to_map [(py "speed", py "2"); (py "dir", py "E")])
           [[py "speed"; py "1"]; [py "dir"; py "E"]] [] (py "speed") (py "2")).
  - vm_compute. discriminate.
  - reflexivity.
  - vm_compute. reflexivity.
  - reflexivity.
  - intros item H. inversion H.
Defined.

Lemma replace_from_incl (old : str) (s : str) :
  forall skip x, x ∈ replace_from old [] skip s -> x ∈ s.
Proof.
  induction s as [|c s IH]; intros skip x H; simpl in H; [done|].
  destruct skip as [|k].
  - destruct (starts_with old (c :: s)).
    + right. eapply IH. exact H.
    + apply elem_of_cons in H as [->|H]; [left | right; eapply IH; exact H].
  - right. eapply IH. exact H.
Qed.

Lemma split_incl (sep : N) (s : str) :
  forall seg x, seg ∈ split sep s -> x ∈ seg -> x ∈ s.
Proof.
  induction s as [|c s IH]; intros seg x Hseg Hx; simpl in Hseg.
  - apply list_elem_of_singleton in Hseg as ->. done.
  - destruct (c =? sep).
    + apply elem_of_cons in Hseg as [->|Hseg]; [inversion Hx|].
      right. eapply IH; eassumption.
    + destruct (split sep s) as [|w ws] eqn:E.
      * apply list_elem_of_singleton in Hseg as ->.
        apply list_elem_of_singleton in Hx as ->. left.
      * apply elem_of_cons in Hseg as [->|Hseg].
        -- apply elem_of_cons in Hx as [->|Hx]; [left|].
           right. apply (IH w); [left | exact Hx].
        -- right. apply (IH seg); [by right | exact Hx].
Qed.

(** A line that contains [TLM] and no [=] at all (the bare marker "TLM",
    for one) raises [ValueError] and changes nothing. *)
Theorem telemetry_without_equals_raises (line : str) (w : world) :
  contains (py "TLM") line = true ->
  eq_sign ∉ line ->
  handle_line line w = (Exc ValueError, w).
Proof.
  intros Htlm Heq.
  apply handle_telemetry_bad; [|exact Htlm|].
  { eapply not_telemetry_nonempty; [exact Htlm | discriminate]. }
  apply dict_update_bad. unfold telemetry_items.
  destruct (split semicolon (replace (py "TLM ") [] line)) as [|seg segs] eqn:E.
  { by apply split_nonempty in E. }
  exists [seg]. split; [|simpl; lia].
  cbn [map]. rewrite (split_without_sep eq_sign seg); [left|].
  intros Hin. apply Heq. apply (replace_from_incl (py "TLM ") line 0%nat).
  apply (split_incl semicolon (replace (py "TLM ") [] line) seg); [|exact Hin].
  rewrite E. left.
Qed.

Lemma telemetry_without_equals_raises_witness :
  handle_line (py "TLM") (session (py "12:00:00"))
    = (Exc ValueError, session (py "12:00:00")).
Proof.
  apply telemetry_without_equals_raises; [reflexivity | not_in].
Defined.
Lemma starts_with_snoc (old s : str) (c : N) :
  c ∉ old -> starts_with old (s ++ [c]) = starts_with old s.
Proof.
  revert s. induction old as [|a old IH]; intros s Hc; [by destruct s|].
  assert (Ha : a <> c) by (intros ->; apply Hc; left).
  assert (Hold : c ∉ old) by (intros H; apply Hc; by right).
  destruct s as [|y s]; simpl.
  - apply N.eqb_neq in Ha. by rewrite Ha.
  - by rewrite IH.
Qed.

Lemma starts_with_length (old s : str) :
  starts_with old s = true -> (length old <= length s)%nat.
Proof.
  revert s. induction old as [|a old IH]; intros s H; simpl; [lia|].
  destruct s as [|y s]; [discriminate|]. simpl in H.
  apply andb_true_iff in H as [_ H]. apply IH in H. simpl. lia.
Qed.

Lemma replace_from_snoc (old new : str) (c : N) (s : str) :
  old <> [] -> c ∉ old ->
  forall skip, (skip <= length s)%nat ->
    replace_from old new skip (s ++ [c]) = replace_from old new skip s ++ [c].
Proof.
  intros Hold Hc. induction s as [|x s IH]; intros skip Hskip.
  - simpl in Hskip. replace skip with 0%nat by lia. simpl.
    destruct old as [|a old]; [done|]. simpl.
    assert (Ha : a <> c) by (intros ->; apply Hc; left).
    apply N.eqb_neq in Ha. by rewrite Ha.
  - destruct skip as [|k].
    + cbn [app replace_from].
      change (x :: s ++ [c]) with ((x :: s) ++ [c]).
      rewrite starts_with_snoc by assumption.
      destruct (starts_with old (x :: s)) eqn:E.
      * apply starts_with_length in E. simpl in E.
        rewrite IH by lia. by rewrite app_assoc.
      * rewrite IH by lia. reflexivity.
    + cbn [app replace_from]. apply IH. simpl in Hskip. lia.
Qed.

Lemma split_snoc (sep : N) (s : str) :
  split sep (s ++ [sep]) = split sep s ++ [[]].
Proof.
  induction s as [|c s IH]; simpl.
  - by rewrite N.eqb_refl.
  - destruct (c =? sep); rewrite IH; [reflexivity|].
    destruct (split sep s) as [|w ws] eqn:E; [by apply split_nonempty in E|].
    reflexivity.
Qed.

Lemma ends_with_char_snoc (c : N) (s : str) :
  ends_with_char c s = true -> exists s', s = s' ++ [c].
Proof.
  unfold ends_with_char. destruct (rev s) as [|d r] eqn:E; [discriminate|].
  intros H. apply N.eqb_eq in H as ->. exists (rev r).
  rewrite <- (rev_involutive s), E. reflexivity.
Qed.

(** A telemetry line that ends in a semicolon raises [ValueError] and
    changes nothing: the empty text after the last semicolon is not a
    pair. *)
Theorem telemetry_trailing_semicolon_raises (line : str) (w : world) :
  contains (py "TLM") line = true ->
  ends_with_char semicolon line = true ->
  handle_line line w = (Exc ValueError, w).
Proof.
  intros Htlm Hend.
  apply handle_telemetry_bad; [|exact Htlm|].
  { eapply not_telemetry_nonempty; [exact Htlm | discriminate]. }
  apply ends_with_char_snoc in Hend as [s ->].
  apply dict_update_bad. unfold telemetry_items, replace.
  rewrite replace_from_snoc; [|discriminate|not_in|lia].
  rewrite split_snoc, map_app. exists [[]]. split; [|simpl; lia].
  apply elem_of_app. right. left.
Qed.

Lemma telemetry_trailing_semicolon_raises_witness :
  handle_line (py "TLM speed=10;dir=S;") (session (py "12:00:00"))
    = (Exc ValueError, session (py "12:00:00")).
Proof.
  apply telemetry_trailing_semicolon_raises; reflexivity.
Defined.

(** Whitespace around a line, the carriage return of a CRLF ending
    included, makes no difference to what the inner loop does with it. *)
Theorem surrounding_whitespace_is_ignored
        (pre raw post rest : str) (k : nat) (w : world) :
  Forall (fun c => is_space c = true /\ c <> nl) pre ->
  Forall (fun c => is_space c = true /\ c <> nl) post ->
  nl ∉ raw ->
  drain (S k) ((pre ++ raw ++ post) ++ nl :: rest) w
  = drain (S k) (raw ++ nl :: rest) w.
Proof.
  intros Hpre Hpost Hraw.
  assert (Hnl : nl ∉ pre ++ raw ++ post).
  { rewrite !elem_of_app. intros [H|[H|H]]; [|done|].
    - rewrite Forall_forall in Hpre. by destruct (Hpre _ H).
    - rewrite Forall_forall in Hpost. by destruct (Hpost _ H). }
  rewrite !drain_first by assumption.
  rewrite strip_surrounded; [reflexivity| |].
  - eapply Forall_impl; [exact Hpre|]. by intros c [? _].
  - eapply Forall_impl; [exact Hpost|]. by intros c [? _].
Qed.

Lemma surrounding_whitespace_is_ignored_witness :
  drain 1 (([] ++ py "OK dir=W" ++ [13]) ++ nl :: []) (session (py "12:00:00"))
  = drain 1 (py "OK dir=W" ++ nl :: []) (session (py "12:00:00")).
Proof.
  apply (surrounding_whitespace_is_ignored [] (py "OK dir=W") [13] [] 0
           (session (py "12:00:00"))).
  - constructor.
  - repeat constructor. discriminate.
  - not_in.
Defined.

Lemma split_key_value (key value : str) :
  eq_sign ∉ key -> eq_sign ∉ value ->
  split eq_sign (key ++ eq_sign :: value) = [key; value].
Proof.
  intros Hk Hv. induction key as [|c key IH]; simpl.
  - by rewrite split_without_sep.
  - destruct (N.eqb_spec c eq_sign) as [->|Hc]; [exfalso; apply Hk; left|].
    rewrite IH; [reflexivity|]. intros H. apply Hk. by right.
Qed.

Lemma strip_ok_dir (v : str) (c : N) :
  mem c (py "OK ") = false ->
  strip_chars (py "OK ") (py "OK dir=" ++ v ++ [c]) = py "dir" ++ eq_sign :: v ++ [c].
Proof.
  intros Hc. unfold strip_chars, strip_with.
  replace (lstrip_with (fun c0 => mem c0 (py "OK ")) (py "OK dir=" ++ v ++ [c]))
    with ((py "dir" ++ eq_sign :: v) ++ [c]) by (rewrite <- app_assoc; reflexivity).
  rewrite rstrip_with_keep by exact Hc. by rewrite <- app_assoc.
Qed.

Lemma strip_ok_speed (v : str) (c : N) :
  mem c (py "OK ") = false ->
  strip_chars (py "OK ") (py "OK speed=" ++ v ++ [c]) = py "speed" ++ eq_sign :: v ++ [c].
Proof.
  intros Hc. unfold strip_chars, strip_with.
  replace (lstrip_with (fun c0 => mem c0 (py "OK ")) (py "OK speed=" ++ v ++ [c]))
    with ((py "speed" ++ eq_sign :: v) ++ [c]) by (rewrite <- app_assoc; reflexivity).
  rewrite rstrip_with_keep by exact Hc. by rewrite <- app_assoc.
Qed.

(** For an ack of the shape "OK dir=<value>" whose value is not empty, holds
    no [=] and does not end in [O], [K] or a space, the direction becomes
    exactly that value; "OK speed=<value>" sets the speed in the same way. *)
Theorem well_formed_ack_sets_value (v : str) (c : N) (w : world) :
  eq_sign ∉ v ++ [c] ->
  mem c (py "OK ") = false ->
  (contains (py "TLM") (py "OK dir=" ++ v ++ [c]) = false ->
   handle_line (py "OK dir=" ++ v ++ [c]) w =
     (Val tt,
      with_trace (with_self w (set_telemetry (py "direction") (v ++ [c]) (self w)))
        [UpdateTelemetryDisplay
           (<[py "direction" := v ++ [c]]> (telemetry_data (self w)))]))
  /\
  (contains (py "TLM") (py "OK speed=" ++ v ++ [c]) = false ->
   contains (py "dir") (py "OK speed=" ++ v ++ [c]) = false ->
   handle_line (py "OK speed=" ++ v ++ [c]) w =
     (Val tt,
      with_trace (with_self w (set_telemetry (py "speed") (v ++ [c]) (self w)))
        [UpdateTelemetryDisplay
           (<[py "speed" := v ++ [c]]> (telemetry_data (self w)))])).
Proof.
  intros Heq Hc. split.
  - intros Htlm. rewrite handle_direction; [|exact Htlm|reflexivity].
    rewrite strip_ok_dir by exact Hc.
    rewrite split_key_value; [reflexivity | not_in | exact Heq].
  - intros Htlm Hdir. rewrite handle_speed; [|exact Htlm|exact Hdir|reflexivity].
    rewrite strip_ok_speed by exact Hc.
    rewrite split_key_value; [reflexivity | not_in | exact Heq].
Qed.

Lemma well_formed_ack_sets_value_witness :
  handle_line (py "OK speed=" ++ py "12." ++ [53]) (session (py "12:00:00")) =
    (Val tt,
     with_trace
       (with_self (session (py "12:00:00"))
          (set_telemetry (py "speed") (py "12." ++ [53]) (self (session (py "12:00:00")))))
       [UpdateTelemetryDisplay
          (<[py "speed" := py "12." ++ [53]]>
             (telemetry_data (self (session (py "12:00:00")))))]).
Proof.
  apply (proj2 (well_formed_ack_sets_value (py "12.") 53 (session (py "12:00:00"))
                  ltac:(not_in) eq_refl)); reflexivity.
Defined.

Lemma send_command_sends_framed_witness :
  send_command (py "SPEED UP") (session (py "12:00:00")) =
    (Val true,
     World (self (session (py "12:00:00"))) [] 1 (py "12:00:00")
           [Print (py "Sending: " ++ py "SPEED UP");
            Sock 0 (Send (octets "SPEED UP" ++ [x0a]))])
  /\ ends_with_char nl (framed (py "SPEED UP")) = true
  /\ (ends_with_char nl (py "SPEED UP") = true -> framed (py "SPEED UP") = py "SPEED UP").
Proof.
  apply (send_command_sends_framed (py "SPEED UP") (octets "SPEED UP" ++ [x0a])
           (session (py "12:00:00")) 0); reflexivity.
Defined.



Lemma receive_step_lines_witness :
  receive_step (py "OK di")
    (Data (octets "r=W" ++ [x0a] ++ octets "hello" ++ [x0a] ++ octets "TLM sp"))
    (session (py "12:00:00")) =
    (Val (Some (py "TLM sp")),
     World (set_telemetry (py "direction") (py "W") (self (session (py "12:00:00"))))
           [] 1 (py "12:00:00")
           [Sock 0 (Recv 1024);
            UpdateTelemetryDisplay
              (<[py "direction" := py "W"]> (initial_telemetry (py "12:00:00")));
            After (CbLog (Text (py "Server: " ++ py "hello")))]).
Proof.
  apply (receive_step_lines (session (py "12:00:00")) _ 0 (py "OK di")
           (py "r=W" ++ [nl] ++ py "hello" ++ [nl] ++ py "TLM sp")).
  - reflexivity.
  - reflexivity.
  - vm_compute. discriminate.
  - vm_compute. reflexivity.
Defined.

(** ** How the reads cut the stream *)

Lemma without_recv_fields (w w' : world) :
  without_recv w = without_recv w' ->
  self w = self w' /\ script w = script w' /\ sockets w = sockets w' /\
  clock w = clock w' /\
  List.filter (fun e => negb (is_recv e)) (trace w)
  = List.filter (fun e => negb (is_recv e)) (trace w').
Proof. intros [= ? ? ? ? ?]. done. Qed.




Lemma blind_ret {A} (a : A) : recv_blind (mret a).
Proof. intros w w' H. by split. Qed.

Lemma blind_raise {A} (e : exn) : recv_blind (@raise A e).
Proof. intros w w' H. by split. Qed.



Lemma blind_get_self : recv_blind get_self.
Proof.
  intros w w' H. split; [|exact H]. simpl.
  by destruct (without_recv_fields _ _ H) as (-> & _).
Qed.

Lemma blind_now : recv_blind now.
Proof.
  intros w w' H. split; [|exact H]. simpl.
  by destruct (without_recv_fields _ _ H) as (_ & _ & _ & -> & _).
Qed.

Lemma blind_set_self (f : client -> client) : recv_blind (set_self f).
Proof.
  intros w w' H. split; [reflexivity|].
  destruct (without_recv_fields _ _ H) as (H1 & H2 & H3 & H4 & H5).
  unfold set_self, without_recv. simpl. by rewrite H1, H2, H3, H4, H5.
Qed.

Lemma blind_emit (e : event) : recv_blind (emit e).
Proof.
  intros w w' H. split; [reflexivity|].
  destruct (without_recv_fields _ _ H) as (H1 & H2 & H3 & H4 & H5).
  unfold emit, without_recv. simpl. rewrite !List.filter_app.
  by rewrite H1, H2, H3, H4, H5.
Qed.

Create HintDb blind.
#[local] Hint Resolve blind_ret blind_raise blind_get_self blind_now blind_set_self
  blind_emit : blind.


























